(** * The advisory backend's recommendation endpoint

    A shallow embedding of the Express handler [app.post('/api/recommend')]
    and of [loadRules], with the JavaScript values, coercions and effects
    the two functions rely on, and of the [onSubmit] handler of the form
    that calls the endpoint, followed by the properties of the
    recommendation resolver, of the handler over arbitrary rule documents
    and request bodies, and of the form. *)

From Stdlib Require Import String Ascii List Bool Arith.
Import ListNotations.
Open Scope string_scope.

(** ** JavaScript values *)

(** The values [JSON.parse] and [express.json()] build.  A Number is
    identified by its [Number::toString] rendering (["0"] stands for both
    zeros): the handler only ever tests a number for truthiness or turns it
    into a string.  An object is the list of its own properties. *)
#[local] Set Warnings "-register-all".
Inductive JSON : Type :=
| JNull
| JBool (b : bool)
| JNum (repr : string)
| JStr (s : string)
| JArr (elems : list JSON)
| JObj (props : list (string * JSON)).

(** A value that may be [undefined]: [None] is [undefined]. *)
Definition JSValue : Type := option JSON.

Inductive Exn : Type :=
| TypeError
| SyntaxError
| SystemError.

(** The completion of an evaluation: a value, or a thrown exception. *)
Inductive Outcome (A : Type) : Type :=
| Return (a : A)
| Throw (e : Exn).
Arguments Return {A} a.
Arguments Throw {A} e.

Definition obind {A B : Type} (o : Outcome A) (k : A -> Outcome B) : Outcome B :=
  match o with
  | Return a => k a
  | Throw e => Throw e
  end.

(** [ToBoolean] on a defined value. *)
Definition truthy (v : JSON) : bool :=
  match v with
  | JNull => false
  | JBool b => b
  | JNum r => negb (r =? "0") && negb (r =? "NaN")
  | JStr s => negb (s =? "")
  | JArr _ => true
  | JObj _ => true
  end.

Definition ToBoolean (v : JSValue) : bool :=
  match v with
  | None => false
  | Some j => truthy j
  end.

(** [a || d] where [d] is a literal. *)
Definition or_else (a : JSValue) (d : JSON) : JSON :=
  match a with
  | Some j => if truthy j then j else d
  | None => d
  end.

Fixpoint own_property (props : list (string * JSON)) (key : string) : JSValue :=
  match props with
  | [] => None
  | (k, v) :: rest => if k =? key then Some v else own_property rest key
  end.

(** Property read [v.key], for the property names this program reads
    ([soilType], [crop], [region], [rules], [soil], [sowingTime], ...), none
    of which is defined on a built-in prototype: reading from [null] throws,
    an object answers with its own property, anything else with
    [undefined]. *)
Definition Get (v : JSON) (key : string) : Outcome JSValue :=
  match v with
  | JNull => Throw TypeError
  | JObj props => Return (own_property props key)
  | _ => Return None
  end.

(** [ToString].  An array is joined with commas ([null] elements print as
    the empty string).  An object goes through [OrdinaryToPrimitive]: an own
    [toString] property parsed from JSON is never callable, and neither an
    own [valueOf] nor [Object.prototype.valueOf] yields a primitive, so such
    an object cannot be converted; without it [Object.prototype.toString]
    answers. *)
Fixpoint ToString (v : JSON) : Outcome string :=
  match v with
  | JNull => Return "null"
  | JBool true => Return "true"
  | JBool false => Return "false"
  | JNum r => Return r
  | JStr s => Return s
  | JArr elems =>
      (fix join (l : list JSON) : Outcome string :=
         match l with
         | [] => Return ""
         | x :: rest =>
             obind (match x with JNull => Return "" | _ => ToString x end)
               (fun s =>
                  match rest with
                  | [] => Return s
                  | _ :: _ => obind (join rest) (fun t => Return (s ++ "," ++ t))
                  end)
         end) elems
  | JObj props =>
      match own_property props "toString" with
      | Some _ => Throw TypeError
      | None => Return "[object Object]"
      end
  end.

(** The call [String(v)]. *)
Definition String_ (v : JSValue) : Outcome string :=
  match v with
  | None => Return "undefined"
  | Some j => ToString j
  end.

(** [v === s] for a string [s]. *)
Definition strict_eq_string (v : JSValue) (s : string) : bool :=
  match v with
  | Some (JStr t) => t =? s
  | _ => false
  end.

(** ** The built-ins taken as given *)

(** [String.prototype.toLowerCase]. *)
Class Runtime : Type := {
  toLowerCase : string -> string
}.

(** The text of a file, identified with what [JSON.parse] makes of it:
    [Some v] for the JSON text of [v], [None] for a text on which
    [JSON.parse] throws a [SyntaxError].  The program does nothing else
    with the text it reads. *)
Definition FileText : Type := option JSON.

Definition JSON_parse (raw : FileText) : Outcome JSON :=
  match raw with
  | Some v => Return v
  | None => Throw SyntaxError
  end.

(** ** Effects: the file system, the console, exceptions *)

Inductive Event : Type :=
| FsRead (path : string)
| ConsoleError (msg : string).

(** [disk] gives the contents of the readable files; [trace] records the
    I/O performed so far, oldest first. *)
Record World : Type := {
  disk : string -> option FileText;
  trace : list Event
}.

Definition emit (e : Event) (w : World) : World :=
  {| disk := disk w; trace := trace w ++ [e] |}.

Definition M (A : Type) : Type := World -> Outcome A * World.

Definition ret {A : Type} (a : A) : M A := fun w => (Return a, w).

Definition throw {A : Type} (e : Exn) : M A := fun w => (Throw e, w).

Definition bind {A B : Type} (m : M A) (k : A -> M B) : M B :=
  fun w =>
    match m w with
    | (Return a, w') => k a w'
    | (Throw e, w') => (Throw e, w')
    end.

Definition lift {A : Type} (o : Outcome A) : M A := fun w => (o, w).

Definition try_catch {A : Type} (m : M A) (h : Exn -> M A) : M A :=
  fun w =>
    match m w with
    | (Return a, w') => (Return a, w')
    | (Throw e, w') => h e w'
    end.

Declare Scope js_scope.
Delimit Scope js_scope with js.
Notation "x <- m ;; k" := (bind m (fun x => k))
  (at level 100, m at next level, right associativity) : js_scope.
Notation "m ;;; k" := (bind m (fun _ => k))
  (at level 100, right associativity) : js_scope.
Open Scope js_scope.

Definition readFileSync (path : string) : M FileText :=
  fun w =>
    match disk w path with
    | Some raw => (Return raw, emit (FsRead path) w)
    | None => (Throw SystemError, emit (FsRead path) w)
    end.

Definition console_error (msg : string) : M unit :=
  fun w => (Return tt, emit (ConsoleError msg) w).

(** ** The response *)

Record Recommendation : Type := {
  sowingTime : JSValue;
  irrigation : JSValue;
  fertilizer : JSValue;
  notes : JSON
}.

Record Advice : Type := {
  soilType : string;
  crop : string;
  region : JSON;
  recommendation : Recommendation
}.

Inductive Payload : Type :=
| ErrorPayload (error : string)
| AdvicePayload (a : Advice).

Record Response : Type := {
  status : nat;
  payload : Payload
}.

(** [res.json(p)] and [res.status(400).json(p)]. *)
Definition res_json (p : Payload) : Response := {| status := 200; payload := p |}.
Definition res_status_json (code : nat) (p : Payload) : Response :=
  {| status := code; payload := p |}.

(** ** The program *)

Section Program.
Context {R : Runtime}.

(** [path.join(__dirname, 'data', 'rules.json')], relative to the directory
    of the module. *)
Definition rulesFilePath : string := "data/rules.json".

Definition loadRules : M JSON :=
  try_catch
    (raw <- readFileSync rulesFilePath ;;
     lift (JSON_parse raw))
    (fun _ =>
       console_error "Failed to read rules.json" ;;;
       ret (JObj [("rules", JArr [])])).

(** The callback [r => r.soil === normalizedSoil && r.crop === normalizedCrop]. *)
Definition rule_test (normalizedSoil normalizedCrop : string) (r : JSON) : Outcome bool :=
  obind (Get r "soil") (fun s =>
    if strict_eq_string s normalizedSoil
    then obind (Get r "crop") (fun c => Return (strict_eq_string c normalizedCrop))
    else Return false).

(** [Array.prototype.find] with that callback. *)
Fixpoint find_rule (normalizedSoil normalizedCrop : string) (rules : list JSON)
  : Outcome JSValue :=
  match rules with
  | [] => Return None
  | r :: rest =>
      obind (rule_test normalizedSoil normalizedCrop r) (fun hit =>
        if hit then Return (Some r) else find_rule normalizedSoil normalizedCrop rest)
  end.

(** [(data.rules || []).find(...)]: only an array has a [find] method. *)
Definition find_in (data : JSON) (normalizedSoil normalizedCrop : string)
  : Outcome JSValue :=
  obind (Get data "rules") (fun rules =>
    match or_else rules (JArr []) with
    | JArr elems => find_rule normalizedSoil normalizedCrop elems
    | _ => Throw TypeError
    end).

Definition generic_guidance : Recommendation :=
  {| sowingTime := Some (JStr "Consult local agri-extension for optimal window");
     irrigation := Some (JStr "1-2 times/week depending on rainfall");
     fertilizer := Some (JStr "Balanced NPK (e.g., 10-26-26) at recommended doses");
     notes := JStr "No exact match found. Displaying generic guidance." |}.

(** The object sent when [!match]. *)
Definition fallback_response (normalizedSoil normalizedCrop : string) (region0 : JSValue)
  : Response :=
  res_json (AdvicePayload
    {| soilType := normalizedSoil;
       crop := normalizedCrop;
       region := or_else region0 (JStr "");
       recommendation := generic_guidance |}).

(** The object [response] built from [match]. *)
Definition match_response (normalizedSoil normalizedCrop : string) (region0 : JSValue)
    (m : JSON) : Outcome Response :=
  obind (Get m "sowingTime") (fun st =>
  obind (Get m "irrigation") (fun ir =>
  obind (Get m "fertilizer") (fun fe =>
  obind (Get m "notes") (fun n =>
  Return (res_json (AdvicePayload
    {| soilType := normalizedSoil;
       crop := normalizedCrop;
       region := or_else region0 (JStr "");
       recommendation :=
         {| sowingTime := st;
            irrigation := ir;
            fertilizer := fe;
            notes := or_else n JNull |} |})))))).

(** The handler past the validation guard and the load (lines 42 to 76),
    for the loaded [data]. *)
Definition respond (data : JSON) (soilType0 crop0 region0 : JSValue) : Outcome Response :=
  obind (String_ soilType0) (fun s =>
  let normalizedSoil := toLowerCase s in
  obind (String_ crop0) (fun c =>
  let normalizedCrop := toLowerCase c in
  obind (find_in data normalizedSoil normalizedCrop) (fun found =>
  match found with
  | Some m =>
      if negb (truthy m)
      then Return (fallback_response normalizedSoil normalizedCrop region0)
      else match_response normalizedSoil normalizedCrop region0 m
  | None => Return (fallback_response normalizedSoil normalizedCrop region0)
  end))).

(** [const { soilType, crop, region } = req.body || {}]. *)
Definition fields_of (body : JSValue) : Outcome (JSValue * JSValue * JSValue) :=
  let b := or_else body (JObj []) in
  obind (Get b "soilType") (fun s =>
  obind (Get b "crop") (fun c =>
  obind (Get b "region") (fun r =>
  Return (s, c, r)))).

(** The handler of [POST /api/recommend]; [body] is [req.body]. *)
Definition recommend (body : JSValue) : M Response :=
  f <- lift (fields_of body) ;;
  let '(soilType0, crop0, region0) := f in
  if negb (ToBoolean soilType0) || negb (ToBoolean crop0) then
    ret (res_status_json 400
           (ErrorPayload "Missing required fields: soilType and crop"))
  else
    data <- loadRules ;;
    lift (respond data soilType0 crop0 region0).

End Program.

(** ** Typed rule tables and queries, as the data model describes them *)

Record Rule : Type := {
  rule_soil : string;
  rule_crop : string;
  rule_sowingTime : string;
  rule_irrigation : string;
  rule_fertilizer : string;
  rule_notes : option string
}.

Definition json_of_rule (r : Rule) : JSON :=
  JObj ([("soil", JStr (rule_soil r));
         ("crop", JStr (rule_crop r));
         ("sowingTime", JStr (rule_sowingTime r));
         ("irrigation", JStr (rule_irrigation r));
         ("fertilizer", JStr (rule_fertilizer r))]
        ++ match rule_notes r with
           | Some n => [("notes", JStr n)]
           | None => []
           end).

(** The document [{ "rules": [...] }] that [loadRules] expects. *)
Definition json_of_table (rules : list Rule) : JSON :=
  JObj [("rules", JArr (map json_of_rule rules))].

(** The body [{ soilType, crop, region }] of a well-typed request. *)
Definition query (soilType0 crop0 : string) (region0 : option string) : JSValue :=
  Some (JObj ([("soilType", JStr soilType0); ("crop", JStr crop0)]
              ++ match region0 with
                 | Some r => [("region", JStr r)]
                 | None => []
                 end)).

(** A world whose rule file holds the table [rules]. *)
Definition holds_table (w : World) (rules : list Rule) : Prop :=
  disk w rulesFilePath = Some (Some (json_of_table rules)).

Definition rule_matches (normalizedSoil normalizedCrop : string) (r : Rule) : bool :=
  (rule_soil r =? normalizedSoil) && (rule_crop r =? normalizedCrop).

(** The recommendation that copies the fields of [r]. *)
Definition recommendation_of (r : Rule) : Recommendation :=
  {| sowingTime := Some (JStr (rule_sowingTime r));
     irrigation := Some (JStr (rule_irrigation r));
     fertilizer := Some (JStr (rule_fertilizer r));
     notes := match rule_notes r with
              | Some n => if n =? "" then JNull else JStr n
              | None => JNull
              end |}.

(** ** A runtime for examples: lowercasing of the ASCII letters *)

Definition lower_ascii (c : ascii) : ascii :=
  let n := nat_of_ascii c in
  if ((65 <=? n) && (n <=? 90))%nat then ascii_of_nat (n + 32) else c.

Fixpoint ascii_toLowerCase (s : string) : string :=
  match s with
  | EmptyString => EmptyString
  | String c rest => String (lower_ascii c) (ascii_toLowerCase rest)
  end.

Definition ascii_runtime : Runtime := {| toLowerCase := ascii_toLowerCase |}.

(** A world with [text] in the rule file and no I/O performed yet. *)
Definition world_with (text : option FileText) : World :=
  {| disk := fun p => if p =? rulesFilePath then text else None; trace := [] |}.

(** ** Vocabulary of the statements *)

(** The field [key] of the request, as the destructuring of
    [req.body || {}] sees it. *)
Definition field (body : JSValue) (key : string) : JSValue :=
  match or_else body (JObj []) with
  | JObj props => own_property props key
  | _ => None
  end.

(** A required field that is absent, [null] or the empty string. *)
Definition missing_or_empty (v : JSValue) : bool :=
  match v with
  | None => true
  | Some JNull => true
  | Some (JStr s) => s =? ""
  | Some _ => false
  end.

(** The table a request works with, given what the rule file holds when the
    request arrives: the value [loadRules] returns. *)
Definition loaded (file : option FileText) : JSON :=
  match file with
  | Some (Some v) => v
  | _ => JObj [("rules", JArr [])]
  end.

(** The I/O of one call of [loadRules]. *)
Definition load_events (file : option FileText) : list Event :=
  match file with
  | Some (Some _) => [FsRead rulesFilePath]
  | _ => [FsRead rulesFilePath; ConsoleError "Failed to read rules.json"]
  end.

Definition validation_error : Response :=
  res_status_json 400 (ErrorPayload "Missing required fields: soilType and crop").

(** The environment replaces the contents of a file between two requests. *)
Definition overwrite (path : string) (text : option FileText) (w : World) : World :=
  {| disk := fun p => if p =? path then text else disk w p; trace := trace w |}.

Definition region_text (region0 : option string) : string :=
  match region0 with
  | Some r => r
  | None => ""
  end.

(** What a valid, well-typed query gets from a well-typed table. *)
Definition advice_for {R : Runtime} (rules : list Rule) (s c : string) (region0 : option string)
  : Response :=
  res_json (AdvicePayload
    {| soilType := toLowerCase s;
       crop := toLowerCase c;
       region := JStr (region_text region0);
       recommendation :=
         match find (rule_matches (toLowerCase s) (toLowerCase c)) rules with
         | Some r => recommendation_of r
         | None => generic_guidance
         end |}).

(** ** Sample data *)

Definition clay_rice : Rule :=
  {| rule_soil := "clay"; rule_crop := "rice"; rule_sowingTime := "June";
     rule_irrigation := "Daily"; rule_fertilizer := "Urea"; rule_notes := None |}.

Definition clay_rice_late : Rule :=
  {| rule_soil := "clay"; rule_crop := "rice"; rule_sowingTime := "July";
     rule_irrigation := "Weekly"; rule_fertilizer := "Compost";
     rule_notes := Some "Second entry" |}.

Definition capitalised_rule : Rule :=
  {| rule_soil := "Clay"; rule_crop := "Rice"; rule_sowingTime := "June";
     rule_irrigation := "Daily"; rule_fertilizer := "Urea"; rule_notes := None |}.

Definition loam_wheat_blank_notes : Rule :=
  {| rule_soil := "loam"; rule_crop := "wheat"; rule_sowingTime := "November";
     rule_irrigation := "Every 10 days"; rule_fertilizer := "DAP";
     rule_notes := Some "" |}.

Definition table_world (rules : list Rule) : World :=
  world_with (Some (Some (json_of_table rules))).

(** A body whose [soilType] is an object with an own [toString] property. *)
Definition hostile_body : JSValue :=
  Some (JObj [("soilType", JObj [("toString", JNum "1")]); ("crop", JStr "rice")]).

(** ** Vocabulary for arbitrary rule documents *)

(** The entry [m] is keyed [(soil0, crop0)]: an object whose own [soil] and
    [crop] are exactly these two strings. *)
Definition keyed (soil0 crop0 : string) (m : JSON) : bool :=
  match m with
  | JObj props =>
      strict_eq_string (own_property props "soil") soil0
      && strict_eq_string (own_property props "crop") crop0
  | _ => false
  end.

Definition is_null (m : JSON) : bool :=
  match m with
  | JNull => true
  | _ => false
  end.

(** The entries scanned without a hit and without an exception. *)
Definition passed_over (soil0 crop0 : string) (entries : list JSON) : Prop :=
  forall m, In m entries -> is_null m = false /\ keyed soil0 crop0 m = false.

(** The nested recommendation read off the properties of a matched entry. *)
Definition recommendation_from (props : list (string * JSON)) : Recommendation :=
  {| sowingTime := own_property props "sowingTime";
     irrigation := own_property props "irrigation";
     fertilizer := own_property props "fertilizer";
     notes := or_else (own_property props "notes") JNull |}.

(** A value [String(...)] can convert: neither an object with an own
    [toString] property nor an array that holds one, at any depth. *)
Fixpoint convertible (v : JSON) : bool :=
  match v with
  | JArr elems => forallb convertible elems
  | JObj props =>
      match own_property props "toString" with
      | Some _ => false
      | None => true
      end
  | _ => true
  end.

(** Two outcomes of the handler that differ at most in the [region] of the
    advice. *)
Definition same_but_region (o1 o2 : Outcome Response) : Prop :=
  match o1, o2 with
  | Return r1, Return r2 =>
      status r1 = status r2 /\
      match payload r1, payload r2 with
      | AdvicePayload a1, AdvicePayload a2 =>
          soilType a1 = soilType a2 /\ crop a1 = crop a2 /\
          recommendation a1 = recommendation a2
      | ErrorPayload e1, ErrorPayload e2 => e1 = e2
      | _, _ => False
      end
  | Throw e1, Throw e2 => e1 = e2
  | _, _ => False
  end.

(** A rule whose stored [soil] and [crop] are left unchanged by
    [toLowerCase]. *)
Definition stored_in_lowercase {R : Runtime} (r : Rule) : bool :=
  (toLowerCase (rule_soil r) =? rule_soil r)
  && (toLowerCase (rule_crop r) =? rule_crop r).

(** The body [{ soilType, crop, region }] with arbitrary values. *)
Definition body_of (soilType0 crop0 region0 : JSON) : JSValue :=
  Some (JObj [("soilType", soilType0); ("crop", crop0); ("region", region0)]).

(** The body [res.json] sends: a property whose value is [undefined] is left
    out by [JSON.stringify]. *)
Definition optional_property (key : string) (v : JSValue) : list (string * JSON) :=
  match v with
  | Some j => [(key, j)]
  | None => []
  end.

Definition json_of_payload (p : Payload) : JSON :=
  match p with
  | ErrorPayload e => JObj [("error", JStr e)]
  | AdvicePayload a =>
      JObj [("soilType", JStr (soilType a));
            ("crop", JStr (crop a));
            ("region", region a);
            ("recommendation",
             JObj (optional_property "sowingTime" (sowingTime (recommendation a))
                   ++ optional_property "irrigation" (irrigation (recommendation a))
                   ++ optional_property "fertilizer" (fertilizer (recommendation a))
                   ++ [("notes", notes (recommendation a))]))]
  end.

(** ** The advisory form that calls the endpoint (Advisory.jsx) *)

Module Advisory.

(** The state of the component: the three inputs, and what the last
    submission left. *)
Record State : Type := {
  soilType : string;
  crop : string;
  region : string;
  loading : bool;
  error : string;
  result : JSON
}.

Definition setLoading (b : bool) (st : State) : State :=
  {| soilType := soilType st; crop := crop st; region := region st;
     loading := b; error := error st; result := result st |}.

Definition setError (e : string) (st : State) : State :=
  {| soilType := soilType st; crop := crop st; region := region st;
     loading := loading st; error := e; result := result st |}.

Definition setResult (d : JSON) (st : State) : State :=
  {| soilType := soilType st; crop := crop st; region := region st;
     loading := loading st; error := error st; result := d |}.

(** [soilType && crop]. *)
Definition canSubmit (st : State) : string :=
  if negb (soilType st =? "") then crop st else soilType st.

(** [JSON.stringify({ soilType, crop, region })], as [express.json()] parses
    it back. *)
Definition request_body (st : State) : JSValue :=
  Some (JObj [("soilType", JStr (soilType st));
              ("crop", JStr (crop st));
              ("region", JStr (region st))]).

(** What [await fetch(...)] and [await res.json()] come to: [fetch] rejects
    with an error of that message, or the response arrives and its body is
    not JSON, or it arrives with [res.ok] and the parsed body. *)
Inductive Fetched : Type :=
| FetchRejected (message : string)
| JsonRejected (ok : bool) (message : string)
| Answered (ok : bool) (data : JSON).

(** [data?.error]. *)
Definition optional_error (data : JSON) : JSValue :=
  match data with
  | JObj props => own_property props "error"
  | _ => None
  end.

Section Submit.

(** The message of the [TypeError] raised when a value cannot be converted
    to a string. *)
Variable conversion_failure : string.

(** The message of what [throw new Error(data?.error || 'Request failed')]
    hands to the [catch]. *)
Definition thrown_message (data : JSON) : string :=
  match ToString (or_else (optional_error data) (JStr "Request failed")) with
  | Return m => m
  | Throw _ => conversion_failure
  end.

(** [catch (err) { setError(err.message || 'Something went wrong') }]. *)
Definition on_catch (message : string) (st : State) : State :=
  setError (if message =? "" then "Something went wrong" else message) st.

(** The state while the request is awaited. *)
Definition pending (st : State) : State :=
  setResult JNull (setError "" (setLoading true st)).

(** [onSubmit]: the state once the handler has run to its end, and the body
    it sent, if any.  [fetch] answers for the network and the server. *)
Definition onSubmit (fetch : JSValue -> Fetched) (st : State) : State * option JSValue :=
  if canSubmit st =? "" then (st, None)
  else
    let settled :=
      match fetch (request_body st) with
      | FetchRejected m => on_catch m (pending st)
      | JsonRejected _ m => on_catch m (pending st)
      | Answered ok data =>
          if negb ok
          then on_catch (thrown_message data) (pending st)
          else setResult data (pending st)
      end in
    (setLoading false settled, Some (request_body st)).

End Submit.

End Advisory.

(** A server that answers every request with [fetched]. *)
Definition always_answers (fetched : Advisory.Fetched) : JSValue -> Advisory.Fetched :=
  fun _ => fetched.

Definition clay_rice_form : Advisory.State :=
  {| Advisory.soilType := "clay"; Advisory.crop := "rice"; Advisory.region := "";
     Advisory.loading := false; Advisory.error := ""; Advisory.result := JNull |}.

Definition blank_form : Advisory.State :=
  {| Advisory.soilType := ""; Advisory.crop := "rice"; Advisory.region := "Punjab";
     Advisory.loading := false; Advisory.error := ""; Advisory.result := JNull |}.

(** Documents that are not the table of a list of rules. *)
Definition numeric_key_document : JSON :=
  JObj [("rules",
         JArr [JObj [("soil", JNum "5"); ("crop", JStr "rice")];
               JObj [("soil", JStr "5"); ("crop", JStr "rice")]])].

Definition sparse_document : JSON :=
  JObj [("rules",
         JArr [JNum "7";
               JObj [("soil", JStr "clay"); ("crop", JStr "rice");
                     ("irrigation", JNum "2")];
               JNull])].

Definition document_with_null : JSON :=
  JObj [("rules",
         JArr [json_of_rule loam_wheat_blank_notes; JNull; json_of_rule clay_rice])].

Definition bare_array_document : JSON := JArr [json_of_rule clay_rice].

Definition rules_object_document : JSON :=
  JObj [("rules", JObj [("0", json_of_rule clay_rice)])].

(** * Properties *)

(** ** The monad and the coercions *)

Lemma or_else_truthy (a : JSValue) (d : JSON) :
  truthy d = true -> truthy (or_else a d) = true.
Proof.
  intros Hd. destruct a as [j|]; simpl; auto.
  destruct (truthy j) eqn:E; auto.
Qed.

Lemma or_else_falsy (a : JSValue) (d : JSON) :
  ToBoolean a = false -> or_else a d = d.
Proof.
  destruct a as [j|]; simpl; auto. intros ->. reflexivity.
Qed.

Lemma or_else_of_truthy (j d : JSON) :
  truthy j = true -> or_else (Some j) d = j.
Proof. simpl. intros ->. reflexivity. Qed.

Lemma missing_or_empty_falsy (v : JSValue) :
  missing_or_empty v = true -> ToBoolean v = false.
Proof.
  destruct v as [[ | b | r | s | l | ps]|]; simpl; try discriminate; auto.
  intros ->. reflexivity.
Qed.

Lemma nonempty_string_truthy (s : string) :
  s <> "" -> truthy (JStr s) = true.
Proof.
  intros Hs. unfold truthy. destruct (String.eqb_spec s ""); [ contradiction | reflexivity ].
Qed.

Lemma fields_of_spec (body : JSValue) :
  fields_of body =
  Return (field body "soilType", field body "crop", field body "region").
Proof.
  unfold fields_of, field.
  assert (Ht : truthy (or_else body (JObj [])) = true)
    by (apply or_else_truthy; reflexivity).
  destruct (or_else body (JObj [])); simpl in *; try reflexivity; discriminate.
Qed.

Lemma field_query_soilType s c region0 :
  field (query s c region0) "soilType" = Some (JStr s).
Proof. reflexivity. Qed.

Lemma field_query_crop s c region0 :
  field (query s c region0) "crop" = Some (JStr c).
Proof. reflexivity. Qed.

Lemma field_query_region s c region0 :
  field (query s c region0) "region" = option_map JStr region0.
Proof. destruct region0; reflexivity. Qed.

Lemma or_else_region (region0 : option string) :
  or_else (option_map JStr region0) (JStr "") = JStr (region_text region0).
Proof.
  destruct region0 as [r|]; [ | reflexivity ].
  unfold option_map, or_else, truthy, region_text.
  destruct (String.eqb_spec r ""); simpl; congruence.
Qed.

Section Handler.
Context {R : Runtime}.

(** ** loadRules *)

Lemma loadRules_spec (w : World) :
  loadRules w =
  (Return (loaded (disk w rulesFilePath)),
   {| disk := disk w;
      trace := trace w ++ load_events (disk w rulesFilePath) |}).
Proof.
  unfold loadRules, try_catch, bind, readFileSync, lift, console_error, ret, emit.
  destruct (disk w rulesFilePath) as [[v|]|]; simpl;
    rewrite <- ?app_assoc; reflexivity.
Qed.

(** The handler is the validation guard followed, for a valid request, by
    one load of the rule file and a computation without effects. *)
Lemma recommend_spec (body : JSValue) (w : World) :
  recommend body w =
  if negb (ToBoolean (field body "soilType")) || negb (ToBoolean (field body "crop"))
  then (Return validation_error, w)
  else (respond (loaded (disk w rulesFilePath))
          (field body "soilType") (field body "crop") (field body "region"),
        {| disk := disk w;
           trace := trace w ++ load_events (disk w rulesFilePath) |}).
Proof.
  unfold recommend, bind, lift. rewrite fields_of_spec.
  destruct (negb (ToBoolean (field body "soilType"))
            || negb (ToBoolean (field body "crop"))); [ reflexivity | ].
  rewrite loadRules_spec. reflexivity.
Qed.

End Handler.

Section Lookup.
Context {R : Runtime}.

(** ** The lookup over a typed table *)

Lemma rule_test_json (soil0 crop0 : string) (r : Rule) :
  rule_test soil0 crop0 (json_of_rule r) = Return (rule_matches soil0 crop0 r).
Proof.
  unfold rule_test, rule_matches, json_of_rule. simpl.
  destruct (rule_soil r =? soil0); reflexivity.
Qed.

Lemma find_rule_json (soil0 crop0 : string) (rules : list Rule) :
  find_rule soil0 crop0 (map json_of_rule rules) =
  Return (option_map json_of_rule (find (rule_matches soil0 crop0) rules)).
Proof.
  induction rules as [|r rest IH]; [ reflexivity | ].
  cbn [map find_rule find]. rewrite rule_test_json. cbn [obind].
  destruct (rule_matches soil0 crop0 r); [ reflexivity | exact IH ].
Qed.

Lemma find_in_table (soil0 crop0 : string) (rules : list Rule) :
  find_in (json_of_table rules) soil0 crop0 =
  Return (option_map json_of_rule (find (rule_matches soil0 crop0) rules)).
Proof.
  unfold find_in, json_of_table. simpl. apply find_rule_json.
Qed.

Lemma match_response_json (soil0 crop0 : string) (region0 : JSValue) (r : Rule) :
  match_response soil0 crop0 region0 (json_of_rule r) =
  Return (res_json (AdvicePayload
    {| soilType := soil0; crop := crop0; region := or_else region0 (JStr "");
       recommendation := recommendation_of r |})).
Proof.
  unfold match_response, json_of_rule, recommendation_of.
  destruct (rule_notes r) as [n|]; simpl; [ | reflexivity ].
  destruct (n =? ""); reflexivity.
Qed.

Lemma respond_table (rules : list Rule) (s c : string) (region0 : option string) :
  respond (json_of_table rules) (Some (JStr s)) (Some (JStr c))
    (option_map JStr region0) =
  Return (advice_for rules s c region0).
Proof.
  unfold respond, advice_for. cbn [String_ ToString obind].
  rewrite find_in_table. cbn [obind].
  destruct (find _ rules) as [r|]; cbn [option_map].
  - change (truthy (json_of_rule r)) with true. cbn [negb].
    rewrite match_response_json, or_else_region. reflexivity.
  - unfold fallback_response. rewrite or_else_region. reflexivity.
Qed.

Lemma recommend_table (w : World) (rules : list Rule) (s c : string)
    (region0 : option string) :
  holds_table w rules -> s <> "" -> c <> "" ->
  recommend (query s c region0) w =
  (Return (advice_for rules s c region0),
   {| disk := disk w; trace := trace w ++ [FsRead rulesFilePath] |}).
Proof.
  intros Hw Hs Hc. rewrite recommend_spec.
  rewrite field_query_soilType, field_query_crop, field_query_region.
  cbn [ToBoolean]. rewrite !nonempty_string_truthy by assumption. cbn [negb orb].
  unfold holds_table in Hw. rewrite Hw. cbn [loaded load_events].
  rewrite respond_table. reflexivity.
Qed.

End Lookup.

(** ** Matching *)

Section Matching.
Context {R : Runtime}.

(** C1 (amended): when [r] is the first rule whose stored [soil] and [crop]
    equal the lowercased [soilType] and [crop] of the query, the response
    carries the stored [sowingTime], [irrigation] and [fertilizer] of [r],
    and so does the response to any other casing of the same query.  Only
    the query is lowercased; the table's fields are compared as stored. *)
Theorem C1_lowercase_keyed_rule_is_returned
    (w : World) (rules : list Rule) (r : Rule) (s c : string)
    (region0 : option string) :
  holds_table w rules -> s <> "" -> c <> "" ->
  find (rule_matches (toLowerCase s) (toLowerCase c)) rules = Some r ->
  fst (recommend (query s c region0) w) =
    Return (res_json (AdvicePayload
      {| soilType := toLowerCase s;
         crop := toLowerCase c;
         region := JStr (region_text region0);
         recommendation := recommendation_of r |}))
  /\ rule_soil r = toLowerCase s /\ rule_crop r = toLowerCase c
  /\ forall s' c' : string,
       s' <> "" -> c' <> "" ->
       toLowerCase s' = toLowerCase s -> toLowerCase c' = toLowerCase c ->
       fst (recommend (query s' c' region0) w) =
       fst (recommend (query s c region0) w).
Proof.
  intros Hw Hs Hc Hfind.
  rewrite (recommend_table w rules s c region0 Hw Hs Hc).
  unfold advice_for. rewrite Hfind. cbn [fst].
  split; [ reflexivity | ].
  destruct (find_some _ _ Hfind) as [_ Hm].
  unfold rule_matches in Hm. apply andb_prop in Hm. destruct Hm as [Hm1 Hm2].
  apply String.eqb_eq in Hm1. apply String.eqb_eq in Hm2.
  repeat split; try assumption.
  intros s' c' Hs' Hc' Es Ec.
  rewrite (recommend_table w rules s' c' region0 Hw Hs' Hc').
  unfold advice_for. rewrite Es, Ec, Hfind. reflexivity.
Qed.

(** C4: a valid query that matches no rule of the table gets the one fixed
    generic payload, whose [notes] say that no exact match was found. *)
Theorem C4_no_match_gives_generic_fallback
    (w : World) (rules : list Rule) (s c : string) (region0 : option string) :
  holds_table w rules -> s <> "" -> c <> "" ->
  (forall r, In r rules -> rule_matches (toLowerCase s) (toLowerCase c) r = false) ->
  fst (recommend (query s c region0) w) =
    Return
      {| status := 200;
         payload := AdvicePayload
           {| soilType := toLowerCase s;
              crop := toLowerCase c;
              region := JStr (region_text region0);
              recommendation :=
                {| sowingTime :=
                     Some (JStr "Consult local agri-extension for optimal window");
                   irrigation := Some (JStr "1-2 times/week depending on rainfall");
                   fertilizer :=
                     Some (JStr "Balanced NPK (e.g., 10-26-26) at recommended doses");
                   notes :=
                     JStr "No exact match found. Displaying generic guidance." |} |} |}.
Proof.
  intros Hw Hs Hc Hnone.
  rewrite (recommend_table w rules s c region0 Hw Hs Hc).
  unfold advice_for.
  destruct (find _ rules) as [r|] eqn:Hfind; [ | reflexivity ].
  apply find_some in Hfind. destruct Hfind as [Hin Hm].
  rewrite (Hnone r Hin) in Hm. discriminate.
Qed.

(** C5: among several rules with the same (soil, crop) pair, the
    recommendation is built from the first one in table order, whatever
    follows it. *)
Theorem C5_first_rule_in_table_order_wins
    (w : World) (before after : list Rule) (r : Rule) (s c : string)
    (region0 : option string) :
  holds_table w (before ++ r :: after) -> s <> "" -> c <> "" ->
  (forall r', In r' before ->
     rule_matches (toLowerCase s) (toLowerCase c) r' = false) ->
  rule_matches (toLowerCase s) (toLowerCase c) r = true ->
  fst (recommend (query s c region0) w) =
    Return (res_json (AdvicePayload
      {| soilType := toLowerCase s;
         crop := toLowerCase c;
         region := JStr (region_text region0);
         recommendation := recommendation_of r |})).
Proof.
  intros Hw Hs Hc Hbefore Hr.
  rewrite (recommend_table w _ s c region0 Hw Hs Hc).
  unfold advice_for.
  assert (Hfind : find (rule_matches (toLowerCase s) (toLowerCase c))
                    (before ++ r :: after) = Some r).
  { clear Hw. induction before as [|b rest IH]; cbn [app find].
    - rewrite Hr. reflexivity.
    - rewrite (Hbefore b (or_introl eq_refl)).
      apply IH. intros r' Hin. apply Hbefore. right. exact Hin. }
  rewrite Hfind. reflexivity.
Qed.

End Matching.

(** C1 (as stated) fails: a rule stored as ("Clay", "Rice") is in the table
    and equals the query ("clay", "rice") up to case, yet the table's fields
    are not lowercased before the comparison, and the query falls through
    to the generic fallback instead of the stored fields. *)
Lemma C1_counterexample :
  In capitalised_rule [capitalised_rule]
  /\ ascii_toLowerCase (rule_soil capitalised_rule) = ascii_toLowerCase "clay"
  /\ ascii_toLowerCase (rule_crop capitalised_rule) = ascii_toLowerCase "rice"
  /\ fst (@recommend ascii_runtime (query "clay" "rice" None)
            (table_world [capitalised_rule]))
     = Return (fallback_response "clay" "rice" None)
  /\ sowingTime generic_guidance <> Some (JStr (rule_sowingTime capitalised_rule))
  /\ irrigation generic_guidance <> Some (JStr (rule_irrigation capitalised_rule))
  /\ fertilizer generic_guidance <> Some (JStr (rule_fertilizer capitalised_rule)).
Proof.
  repeat split; try reflexivity; try (left; reflexivity); discriminate.
Qed.

Lemma C1_witness :
  fst (@recommend ascii_runtime (query "Clay" "RICE" None)
         (table_world [clay_rice; clay_rice_late]))
  = Return (res_json (AdvicePayload
      {| soilType := "clay"; crop := "rice"; region := JStr "";
         recommendation := recommendation_of clay_rice |}))
  /\ fst (@recommend ascii_runtime (query "CLAY" "rice" None)
            (table_world [clay_rice; clay_rice_late]))
     = fst (@recommend ascii_runtime (query "Clay" "RICE" None)
              (table_world [clay_rice; clay_rice_late])).
Proof.
  destruct (@C1_lowercase_keyed_rule_is_returned ascii_runtime
              (table_world [clay_rice; clay_rice_late])
              [clay_rice; clay_rice_late] clay_rice "Clay" "RICE" None)
    as (Hresp & _ & _ & Hcase).
  - reflexivity.
  - discriminate.
  - discriminate.
  - reflexivity.
  - split.
    + exact Hresp.
    + apply Hcase; [ discriminate | discriminate | reflexivity | reflexivity ].
Defined.

Lemma C4_witness :
  fst (@recommend ascii_runtime (query "sandy" "maize" None)
         (table_world [clay_rice]))
  = Return (fallback_response "sandy" "maize" None).
Proof.
  apply (@C4_no_match_gives_generic_fallback ascii_runtime
           (table_world [clay_rice]) [clay_rice] "sandy" "maize" None).
  - reflexivity.
  - discriminate.
  - discriminate.
  - intros r [<- | []]. reflexivity.
Defined.

Lemma C5_witness :
  fst (@recommend ascii_runtime (query "Clay" "Rice" (Some "Punjab"))
         (table_world [loam_wheat_blank_notes; clay_rice; clay_rice_late]))
  = Return (res_json (AdvicePayload
      {| soilType := "clay"; crop := "rice"; region := JStr "Punjab";
         recommendation := recommendation_of clay_rice |})).
Proof.
  apply (@C5_first_rule_in_table_order_wins ascii_runtime
           (table_world [loam_wheat_blank_notes; clay_rice; clay_rice_late])
           [loam_wheat_blank_notes] [clay_rice_late] clay_rice
           "Clay" "Rice" (Some "Punjab")).
  - reflexivity.
  - discriminate.
  - discriminate.
  - intros r [<- | []]. reflexivity.
  - reflexivity.
Defined.

(** ** The shape of the response *)

Lemma obind_Return {A B : Type} (o : Outcome A) (k : A -> Outcome B) (b : B) :
  obind o k = Return b -> exists a, o = Return a /\ k a = Return b.
Proof.
  destruct o as [a|e]; simpl; [ | discriminate ].
  intros H. exists a. split; [ reflexivity | exact H ].
Qed.

Lemma or_else_null_iff (n : JSValue) :
  or_else n JNull = JNull <-> ToBoolean n = false.
Proof.
  destruct n as [j|]; simpl; [ | tauto ].
  destruct (truthy j) eqn:E; split; intros H; try reflexivity; try discriminate.
  subst j. discriminate.
Qed.

Section Shape.
Context {R : Runtime}.

Lemma match_response_shape soil0 crop0 region0 m resp :
  match_response soil0 crop0 region0 m = Return resp ->
  exists reco,
    resp = res_json (AdvicePayload
      {| soilType := soil0; crop := crop0; region := or_else region0 (JStr "");
         recommendation := reco |}).
Proof.
  unfold match_response. intros H.
  apply obind_Return in H. destruct H as (st & _ & H).
  apply obind_Return in H. destruct H as (ir & _ & H).
  apply obind_Return in H. destruct H as (fe & _ & H).
  apply obind_Return in H. destruct H as (n & _ & H).
  injection H as <-. eexists. reflexivity.
Qed.

(** Every response sent past the validation guard is a 200 whose [soilType]
    and [crop] are the lowercased [String(...)] of the request's values and
    whose [region] is [region || '']. *)
Lemma respond_shape data soilType0 crop0 region0 resp :
  respond data soilType0 crop0 region0 = Return resp ->
  exists s c reco,
    String_ soilType0 = Return s /\ String_ crop0 = Return c /\
    resp = res_json (AdvicePayload
      {| soilType := toLowerCase s; crop := toLowerCase c;
         region := or_else region0 (JStr "");
         recommendation := reco |}).
Proof.
  unfold respond. intros H.
  apply obind_Return in H. destruct H as (s & Hs & H).
  apply obind_Return in H. destruct H as (c & Hc & H).
  apply obind_Return in H. destruct H as (found & _ & H).
  exists s, c.
  destruct found as [m|].
  - destruct (negb (truthy m)).
    + injection H as <-. eexists. repeat split; eassumption.
    + apply match_response_shape in H. destruct H as (reco & ->).
      exists reco. repeat split; assumption.
  - injection H as <-. eexists. repeat split; eassumption.
Qed.

(** C2: a valid query against a rule table is answered with the lowercased
    [soilType] and [crop], the region as given (the empty string when
    omitted), and, on a match, the rule's fields copied into the nested
    recommendation with [notes] null when the rule has none; the sample
    query of the specification gets exactly the sample response. *)
Theorem C2_response_carries_normalised_query
    (w : World) (rules : list Rule) (s c : string) (region0 : option string) :
  holds_table w rules -> s <> "" -> c <> "" ->
  (exists reco : Recommendation,
     fst (recommend (query s c region0) w) =
       Return
         {| status := 200;
            payload := AdvicePayload
              {| soilType := toLowerCase s;
                 crop := toLowerCase c;
                 region := match region0 with
                           | Some given => JStr given
                           | None => JStr ""
                           end;
                 recommendation := reco |} |}
     /\ (forall r,
           find (rule_matches (toLowerCase s) (toLowerCase c)) rules = Some r ->
           sowingTime reco = Some (JStr (rule_sowingTime r)) /\
           irrigation reco = Some (JStr (rule_irrigation r)) /\
           fertilizer reco = Some (JStr (rule_fertilizer r)) /\
           (rule_notes r = None -> notes reco = JNull) /\
           (forall n, rule_notes r = Some n -> n <> "" -> notes reco = JStr n))
     /\ (find (rule_matches (toLowerCase s) (toLowerCase c)) rules = None ->
         reco = generic_guidance))
  /\ (toLowerCase "Clay" = "clay" -> toLowerCase "RICE" = "rice" ->
      find (rule_matches "clay" "rice") rules = Some clay_rice ->
      fst (recommend (query "Clay" "RICE" (Some "Punjab")) w) =
        Return
          {| status := 200;
             payload := AdvicePayload
               {| soilType := "clay";
                  crop := "rice";
                  region := JStr "Punjab";
                  recommendation :=
                    {| sowingTime := Some (JStr "June");
                       irrigation := Some (JStr "Daily");
                       fertilizer := Some (JStr "Urea");
                       notes := JNull |} |} |}).
Proof.
  intros Hw Hs Hc. split.
  - rewrite (recommend_table w rules s c region0 Hw Hs Hc).
    unfold advice_for. eexists. split.
    + cbn [fst]. unfold res_json, region_text. destruct region0; reflexivity.
    + split.
      * intros r Hfind. rewrite Hfind. cbn.
        repeat split; try reflexivity.
        -- intros ->. reflexivity.
        -- intros n -> Hn. destruct (String.eqb_spec n ""); congruence.
      * intros ->. reflexivity.
  - intros Hsoil Hcrop Hfind.
    rewrite (recommend_table w rules "Clay" "RICE" (Some "Punjab") Hw)
      by discriminate.
    unfold advice_for. rewrite Hsoil, Hcrop, Hfind. reflexivity.
Qed.

(** ** Validation *)

(** The guard [!soilType || !crop] is the only source of a 400. *)
Lemma validation_iff_falsy (body : JSValue) (w : World) :
  fst (recommend body w) = Return validation_error <->
  ToBoolean (field body "soilType") = false \/
  ToBoolean (field body "crop") = false.
Proof.
  rewrite recommend_spec.
  destruct (ToBoolean (field body "soilType")) eqn:E1;
    destruct (ToBoolean (field body "crop")) eqn:E2; cbn [negb orb fst];
    try (split; [ intros _; auto | reflexivity ]).
  split; [ | intros [H|H]; discriminate ].
  intros H. apply respond_shape in H.
  destruct H as (s & c & reco & _ & _ & H). discriminate.
Qed.

(** C3: a request whose [soilType] or [crop] is missing or empty is
    answered with status 400 and an [error] message, and the rule file is
    not touched; a request in which both are non-empty strings never gets
    the validation error, whatever its region. *)
Theorem C3_validation_guard (body : JSValue) (w : World) :
  (missing_or_empty (field body "soilType") = true \/
   missing_or_empty (field body "crop") = true ->
   recommend body w =
     (Return {| status := 400;
                payload := ErrorPayload "Missing required fields: soilType and crop" |},
      w))
  /\ (forall s c : string,
        field body "soilType" = Some (JStr s) ->
        field body "crop" = Some (JStr c) ->
        s <> "" -> c <> "" ->
        (forall e, fst (recommend body w) <> Return (res_status_json 400 (ErrorPayload e)))
        /\ forall resp,
             fst (recommend body w) = Return resp ->
             status resp = 200 /\ exists a, payload resp = AdvicePayload a).
Proof.
  split.
  - intros H. rewrite recommend_spec.
    destruct H as [H|H]; apply missing_or_empty_falsy in H; rewrite H;
      cbn [negb orb]; [ reflexivity | rewrite orb_true_r; reflexivity ].
  - intros s c Hsoil Hcrop Hs Hc.
    assert (Hshape : forall resp,
               fst (recommend body w) = Return resp ->
               status resp = 200 /\ exists a, payload resp = AdvicePayload a).
    { intros resp. rewrite recommend_spec, Hsoil, Hcrop. cbn [ToBoolean].
      rewrite !nonempty_string_truthy by assumption. cbn [negb orb fst].
      intros H. apply respond_shape in H.
      destruct H as (s' & c' & reco & _ & _ & ->).
      split; [ reflexivity | eexists; reflexivity ]. }
    split; [ | exact Hshape ].
    intros e H. apply Hshape in H. destruct H as [H _]. discriminate.
Qed.

End Shape.

Lemma C2_witness :
  fst (@recommend ascii_runtime (query "Clay" "RICE" (Some "Punjab"))
         (table_world [clay_rice]))
  = Return
      {| status := 200;
         payload := AdvicePayload
           {| soilType := "clay"; crop := "rice"; region := JStr "Punjab";
              recommendation :=
                {| sowingTime := Some (JStr "June");
                   irrigation := Some (JStr "Daily");
                   fertilizer := Some (JStr "Urea");
                   notes := JNull |} |} |}.
Proof.
  destruct (@C2_response_carries_normalised_query ascii_runtime
              (table_world [clay_rice]) [clay_rice] "Clay" "RICE" (Some "Punjab"))
    as [_ Hsample].
  - reflexivity.
  - discriminate.
  - discriminate.
  - apply Hsample; reflexivity.
Defined.

Lemma C3_witness :
  @recommend ascii_runtime (query "" "rice" None) (table_world [clay_rice])
  = (Return validation_error, table_world [clay_rice])
  /\ forall e,
       fst (@recommend ascii_runtime (query "clay" "rice" None)
              (table_world [clay_rice]))
       <> Return (res_status_json 400 (ErrorPayload e)).
Proof.
  split.
  - apply (@C3_validation_guard ascii_runtime (query "" "rice" None)
             (table_world [clay_rice])).
    left. reflexivity.
  - apply (proj2 (@C3_validation_guard ascii_runtime (query "clay" "rice" None)
                    (table_world [clay_rice])) "clay" "rice");
      [ reflexivity | reflexivity | discriminate | discriminate ].
Defined.

(** ** Loading the rule file *)

Section Loading.
Context {R : Runtime}.

(** [loadRules] returns a table in every world. *)
Lemma loadRules_returns (w : World) :
  fst (loadRules w) = Return (loaded (disk w rulesFilePath)).
Proof. rewrite loadRules_spec. reflexivity. Qed.

(** C6: when the rule file cannot be read, or its text cannot be parsed,
    [loadRules] logs the failure and returns the empty table instead of
    throwing, and every valid query is answered with the generic
    fallback. *)
Theorem C6_failed_load_degrades_to_fallback
    (w : World) (s c : string) (region0 : option string) :
  disk w rulesFilePath = None \/ disk w rulesFilePath = Some None ->
  s <> "" -> c <> "" ->
  loadRules w =
    (Return (JObj [("rules", JArr [])]),
     {| disk := disk w;
        trace := trace w ++ [FsRead rulesFilePath;
                             ConsoleError "Failed to read rules.json"] |})
  /\ recommend (query s c region0) w =
       (Return
          {| status := 200;
             payload := AdvicePayload
               {| soilType := toLowerCase s;
                  crop := toLowerCase c;
                  region := JStr (region_text region0);
                  recommendation := generic_guidance |} |},
        {| disk := disk w;
           trace := trace w ++ [FsRead rulesFilePath;
                                ConsoleError "Failed to read rules.json"] |}).
Proof.
  intros Hfile Hs Hc.
  assert (Hl : loaded (disk w rulesFilePath) = JObj [("rules", JArr [])])
    by (destruct Hfile as [-> | ->]; reflexivity).
  assert (He : load_events (disk w rulesFilePath) =
               [FsRead rulesFilePath; ConsoleError "Failed to read rules.json"])
    by (destruct Hfile as [-> | ->]; reflexivity).
  split.
  - rewrite loadRules_spec, Hl, He. reflexivity.
  - rewrite recommend_spec.
    rewrite field_query_soilType, field_query_crop, field_query_region.
    cbn [ToBoolean]. rewrite !nonempty_string_truthy by assumption.
    cbn [negb orb]. rewrite Hl, He.
    change (JObj [("rules", JArr [])]) with (json_of_table []).
    rewrite respond_table. reflexivity.
Qed.

(** A text that parses to [null] is not a load failure: [data.rules] then
    throws outside the [try] of [loadRules]. *)
Lemma null_document_throws (w : World) (s c : string) (region0 : option string) :
  disk w rulesFilePath = Some (Some JNull) -> s <> "" -> c <> "" ->
  fst (recommend (query s c region0) w) = Throw TypeError.
Proof.
  intros Hfile Hs Hc. rewrite recommend_spec.
  rewrite field_query_soilType, field_query_crop, field_query_region.
  cbn [ToBoolean]. rewrite !nonempty_string_truthy by assumption.
  cbn [negb orb]. rewrite Hfile. reflexivity.
Qed.

(** ** Effects and determinism *)

(** The response depends on the world through the contents of the rule
    file only. *)
Lemma recommend_reads_rule_file_only (body : JSValue) (w w' : World) :
  disk w' rulesFilePath = disk w rulesFilePath ->
  fst (recommend body w') = fst (recommend body w).
Proof.
  intros H. rewrite !recommend_spec, H.
  destruct (negb (ToBoolean (field body "soilType"))
            || negb (ToBoolean (field body "crop"))); reflexivity.
Qed.

Lemma recommend_keeps_disk (body : JSValue) (w : World) :
  disk (snd (recommend body w)) = disk w.
Proof.
  rewrite recommend_spec.
  destruct (negb (ToBoolean (field body "soilType"))
            || negb (ToBoolean (field body "crop"))); reflexivity.
Qed.

(** C7 (amended): the handler reads the rule file once for every valid
    request (and logs to the console when that load fails), and performs
    no I/O for a rejected one; it never writes to the file, and its
    response is a function, without effects, of the query and of the table
    that this request's load returned. *)
Theorem C7_table_is_loaded_on_every_valid_request (body : JSValue) (w : World) :
  let valid :=
    ToBoolean (field body "soilType") && ToBoolean (field body "crop") in
  fst (recommend body w) =
    (if valid
     then respond (loaded (disk w rulesFilePath))
            (field body "soilType") (field body "crop") (field body "region")
     else Return validation_error)
  /\ disk (snd (recommend body w)) = disk w
  /\ trace (snd (recommend body w)) =
       (trace w ++ (if valid
                    then FsRead rulesFilePath ::
                         match disk w rulesFilePath with
                         | Some (Some _) => []
                         | _ => [ConsoleError "Failed to read rules.json"]
                         end
                    else []))%list.
Proof.
  cbv zeta. rewrite recommend_spec.
  destruct (ToBoolean (field body "soilType"));
    destruct (ToBoolean (field body "crop")); cbn [negb orb andb fst snd disk trace];
    rewrite ?app_nil_r; repeat split; try reflexivity.
  destruct (disk w rulesFilePath) as [[v|]|]; reflexivity.
Qed.

(** C8: the same request repeated against an unchanged rule file gets the
    same outcome: the second of two consecutive calls answers as the first
    did, and so does a call in any world whose rule file has the same
    contents. *)
Theorem C8_repeated_request_same_response (body : JSValue) (w : World) :
  fst (recommend body (snd (recommend body w))) = fst (recommend body w)
  /\ forall w' : World,
       disk w' rulesFilePath = disk w rulesFilePath ->
       fst (recommend body w') = fst (recommend body w).
Proof.
  split.
  - apply recommend_reads_rule_file_only.
    rewrite recommend_keeps_disk. reflexivity.
  - intros w'. apply recommend_reads_rule_file_only.
Qed.

(** ** Totality *)

(** A body that is absent or not an object has no fields and is rejected. *)
Lemma non_object_body_is_rejected (body : JSValue) (w : World) :
  (forall props, body <> Some (JObj props)) ->
  recommend body w = (Return validation_error, w).
Proof.
  intros Hbody. rewrite recommend_spec.
  assert (Hf : field body "soilType" = None).
  { unfold field. destruct body as [[ | b | r | s | l | props]|]; simpl;
      try reflexivity.
    - destruct b; reflexivity.
    - destruct (negb (r =? "0") && negb (r =? "NaN")); reflexivity.
    - destruct (negb (s =? "")); reflexivity.
    - exfalso. apply (Hbody props). reflexivity. }
  rewrite Hf. reflexivity.
Qed.

(** A table whose [rules] field is absent or [null] is an empty table. *)
Lemma absent_rules_is_empty_table (props : list (string * JSON)) (soil0 crop0 : string) :
  own_property props "rules" = None \/ own_property props "rules" = Some JNull ->
  find_in (JObj props) soil0 crop0 = Return None.
Proof.
  unfold find_in. cbn [Get obind]. intros [-> | ->]; reflexivity.
Qed.

(** [String(v)] returns for every primitive: only an object with an own
    [toString] property, alone or inside an array, makes it throw. *)
Lemma String_of_primitive_returns (v : JSValue) :
  match v with
  | Some (JArr _) | Some (JObj _) => True
  | _ => exists s, String_ v = Return s
  end.
Proof.
  destruct v as [[ | [|] | r | s | l | props]|]; simpl; try exact I;
    eexists; reflexivity.
Qed.

(** C9 (the handler does throw): a [soilType] that is an object with an own
    [toString] property passes the guard, being truthy, and
    [String(soilType)] then throws a [TypeError], in every world. *)
Theorem C9_own_toString_property_throws (w : World) :
  fst (recommend hostile_body w) = Throw TypeError
  /\ ToBoolean (field hostile_body "soilType") = true
  /\ String_ (field hostile_body "soilType") = Throw TypeError.
Proof.
  rewrite recommend_spec. repeat split; reflexivity.
Qed.

(** ** Notes *)

(** C10: for the matched rule, [recommendation.notes] is [null] exactly
    when the rule's [notes] is falsy (absent, [null], the empty string);
    empty notes come out as [null], truthy notes unchanged. *)
Theorem C10_notes_null_iff_rule_notes_falsy
    (w : World) (data : JSON) (s c : string) (region0 : option string)
    (props : list (string * JSON)) :
  disk w rulesFilePath = Some (Some data) -> s <> "" -> c <> "" ->
  find_in data (toLowerCase s) (toLowerCase c) = Return (Some (JObj props)) ->
  exists a : Advice,
    fst (recommend (query s c region0) w) = Return (res_json (AdvicePayload a))
    /\ (notes (recommendation a) = JNull <->
        ToBoolean (own_property props "notes") = false)
    /\ (own_property props "notes" = None -> notes (recommendation a) = JNull)
    /\ (own_property props "notes" = Some JNull -> notes (recommendation a) = JNull)
    /\ (own_property props "notes" = Some (JStr "") ->
        notes (recommendation a) = JNull)
    /\ (forall n, own_property props "notes" = Some n -> truthy n = true ->
        notes (recommendation a) = n).
Proof.
  intros Hfile Hs Hc Hfind. rewrite recommend_spec.
  rewrite field_query_soilType, field_query_crop, field_query_region.
  cbn [ToBoolean]. rewrite !nonempty_string_truthy by assumption.
  cbn [negb orb fst]. rewrite Hfile. cbn [loaded].
  unfold respond. cbn [String_ ToString obind]. rewrite Hfind.
  cbn [obind truthy negb]. unfold match_response. cbn [Get obind].
  eexists. split; [ reflexivity | ].
  cbn [recommendation notes].
  split; [ apply or_else_null_iff | ].
  repeat split.
  - intros ->. reflexivity.
  - intros ->. reflexivity.
  - intros ->. reflexivity.
  - intros n -> Hn. apply or_else_of_truthy. exact Hn.
Qed.

End Loading.

Lemma C6_witness :
  fst (@recommend ascii_runtime (query "Clay" "rice" None) (world_with None))
  = Return (fallback_response "clay" "rice" None)
  /\ fst (@recommend ascii_runtime (query "Clay" "rice" None) (world_with (Some None)))
     = Return (fallback_response "clay" "rice" None).
Proof.
  split.
  - destruct (@C6_failed_load_degrades_to_fallback ascii_runtime
                (world_with None) "Clay" "rice" None) as [_ H];
      [ left; reflexivity | discriminate | discriminate | ].
    rewrite H. reflexivity.
  - destruct (@C6_failed_load_degrades_to_fallback ascii_runtime
                (world_with (Some None)) "Clay" "rice" None) as [_ H];
      [ right; reflexivity | discriminate | discriminate | ].
    rewrite H. reflexivity.
Defined.

(** C7 (as stated) fails: every valid request reads the rule file again
    (two requests, two reads; a failed read also writes to the console), so
    the same query gets a different answer once the file is rewritten
    between two requests: the response is not a function of the query and
    of a table loaded once. *)
Lemma C7_counterexample :
  let q := query "clay" "rice" None in
  let w0 := table_world [clay_rice] in
  let w1 := snd (@recommend ascii_runtime q w0) in
  let w1' := overwrite rulesFilePath (Some (Some (json_of_table []))) w1 in
  let w2 := snd (@recommend ascii_runtime q w1') in
  trace w0 = []
  /\ trace w1 = [FsRead rulesFilePath]
  /\ trace w2 = [FsRead rulesFilePath; FsRead rulesFilePath]
  /\ fst (@recommend ascii_runtime q w0) <> fst (@recommend ascii_runtime q w1')
  /\ trace (snd (@recommend ascii_runtime q (world_with None)))
     = [FsRead rulesFilePath; ConsoleError "Failed to read rules.json"].
Proof.
  cbv zeta. repeat split; try reflexivity. discriminate.
Qed.

Lemma C8_witness :
  fst (@recommend ascii_runtime (query "clay" "rice" None)
         (overwrite "other.json" None (table_world [clay_rice])))
  = fst (@recommend ascii_runtime (query "clay" "rice" None)
           (table_world [clay_rice])).
Proof.
  apply (proj2 (@C8_repeated_request_same_response ascii_runtime
                  (query "clay" "rice" None) (table_world [clay_rice]))).
  reflexivity.
Defined.

Lemma C10_witness :
  exists a : Advice,
    fst (@recommend ascii_runtime (query "Loam" "Wheat" None)
           (table_world [loam_wheat_blank_notes]))
    = Return (res_json (AdvicePayload a))
    /\ notes (recommendation a) = JNull.
Proof.
  destruct (@C10_notes_null_iff_rule_notes_falsy ascii_runtime
              (table_world [loam_wheat_blank_notes])
              (json_of_table [loam_wheat_blank_notes]) "Loam" "Wheat" None
              [("soil", JStr "loam"); ("crop", JStr "wheat");
               ("sowingTime", JStr "November");
               ("irrigation", JStr "Every 10 days");
               ("fertilizer", JStr "DAP"); ("notes", JStr "")])
    as (a & Hresp & _ & _ & _ & Hblank & _).
  - reflexivity.
  - discriminate.
  - discriminate.
  - reflexivity.
  - exists a. split; [ exact Hresp | apply Hblank; reflexivity ].
Defined.

(** * Further properties of the endpoint *)

(** ** The scan of an arbitrary rules array *)

Lemma strict_eq_string_true (v : JSValue) (s : string) :
  strict_eq_string v s = true -> v = Some (JStr s).
Proof.
  destruct v as [[ | b | r | t | l | ps]|]; simpl; try discriminate.
  intros H. apply String.eqb_eq in H. subst t. reflexivity.
Qed.

Lemma keyed_object (soil0 crop0 : string) (m : JSON) :
  keyed soil0 crop0 m = true ->
  exists props,
    m = JObj props /\
    own_property props "soil" = Some (JStr soil0) /\
    own_property props "crop" = Some (JStr crop0).
Proof.
  destruct m as [ | b | r | t | l | props]; simpl; try discriminate.
  intros H. apply andb_prop in H. destruct H as [H1 H2].
  exists props. repeat split; auto using strict_eq_string_true.
Qed.

Lemma passed_over_nil (soil0 crop0 : string) : passed_over soil0 crop0 [].
Proof. intros m []. Qed.

Lemma passed_over_cons (soil0 crop0 : string) (m : JSON) (entries : list JSON) :
  is_null m = false -> keyed soil0 crop0 m = false ->
  passed_over soil0 crop0 entries -> passed_over soil0 crop0 (m :: entries).
Proof.
  intros Hn Hk Hp m' [<- | Hin]; [ split; assumption | apply Hp, Hin ].
Qed.

Section Scan.
Context {R : Runtime}.

Lemma rule_test_not_null (soil0 crop0 : string) (m : JSON) :
  is_null m = false -> rule_test soil0 crop0 m = Return (keyed soil0 crop0 m).
Proof.
  destruct m as [ | b | r | t | l | props]; simpl; try discriminate;
    intros _; try reflexivity.
  unfold rule_test. cbn [Get obind].
  destruct (strict_eq_string (own_property props "soil") soil0); reflexivity.
Qed.

Lemma find_rule_passed_over (soil0 crop0 : string) (before rest : list JSON) :
  passed_over soil0 crop0 before ->
  find_rule soil0 crop0 (before ++ rest) = find_rule soil0 crop0 rest.
Proof.
  induction before as [|m before IH]; intros Hp; [ reflexivity | ].
  destruct (Hp m (or_introl eq_refl)) as [Hn Hk].
  cbn [app find_rule]. rewrite (rule_test_not_null _ _ _ Hn), Hk. cbn [obind].
  apply IH. intros m' Hin. apply Hp. right. exact Hin.
Qed.

(** The three ways a scan ends: no entry is keyed as asked; or a first keyed
    entry is returned; or a [null] entry is reached before any keyed one. *)
Lemma find_rule_cases (soil0 crop0 : string) (rules : list JSON) :
  (find_rule soil0 crop0 rules = Return None /\ passed_over soil0 crop0 rules)
  \/ (exists before m after,
        rules = (before ++ m :: after)%list /\ passed_over soil0 crop0 before /\
        keyed soil0 crop0 m = true /\
        find_rule soil0 crop0 rules = Return (Some m))
  \/ (exists before after,
        rules = (before ++ JNull :: after)%list /\ passed_over soil0 crop0 before /\
        find_rule soil0 crop0 rules = Throw TypeError).
Proof.
  induction rules as [|m rules IH].
  - left. split; [ reflexivity | apply passed_over_nil ].
  - destruct (is_null m) eqn:Hn.
    + right. right. destruct m; try discriminate.
      exists [], rules.
      split; [ reflexivity | split; [ apply passed_over_nil | reflexivity ] ].
    + destruct (keyed soil0 crop0 m) eqn:Hk.
      * right. left. exists [], m, rules.
        split; [ reflexivity | ].
        split; [ apply passed_over_nil | ].
        split; [ exact Hk | ].
        cbn [find_rule]. rewrite (rule_test_not_null _ _ _ Hn), Hk. reflexivity.
      * assert (Hstep : find_rule soil0 crop0 (m :: rules) =
                        find_rule soil0 crop0 rules).
        { cbn [find_rule]. rewrite (rule_test_not_null _ _ _ Hn), Hk. reflexivity. }
        rewrite Hstep.
        destruct IH as [[Hf Hp] | [(before & m' & after & -> & Hp & Hk' & Hf)
                                  | (before & after & -> & Hp & Hf)]].
        -- left. split; [ exact Hf | apply passed_over_cons; assumption ].
        -- right. left. exists (m :: before), m', after.
           split; [ reflexivity | ].
           split; [ apply passed_over_cons; assumption | ].
           split; assumption.
        -- right. right. exists (m :: before), after.
           split; [ reflexivity | ].
           split; [ apply passed_over_cons; assumption | exact Hf ].
Qed.

(** X1: an entry is returned by the scan only if it is an object whose own
    [soil] and [crop] are strings equal to the normalised query values (the
    comparison is strict) and every entry before it was passed over. *)
Theorem X1_match_is_object_with_exact_string_keys
    (data : JSON) (soil0 crop0 : string) (m : JSON) :
  find_in data soil0 crop0 = Return (Some m) ->
  exists props entries before after,
    m = JObj props /\
    own_property props "soil" = Some (JStr soil0) /\
    own_property props "crop" = Some (JStr crop0) /\
    Get data "rules" = Return (Some (JArr entries)) /\
    entries = (before ++ m :: after)%list /\
    passed_over soil0 crop0 before.
Proof.
  unfold find_in. intros H.
  apply obind_Return in H. destruct H as (rules & Hget & H).
  destruct (or_else rules (JArr [])) as [ | b | r | t | entries | ps] eqn:Hor;
    try discriminate.
  assert (Hrules : rules = Some (JArr entries) \/ entries = []).
  { destruct rules as [j|]; simpl in Hor.
    - destruct (truthy j); [ left; congruence | right; congruence ].
    - right. congruence. }
  destruct Hrules as [-> | ->]; [ | discriminate ].
  destruct (find_rule_cases soil0 crop0 entries)
    as [[Hf _] | [(before & m' & after & He & Hp & Hk & Hf)
                 | (before & after & _ & _ & Hf)]];
    rewrite Hf in H; try discriminate.
  injection H as <-.
  destruct (keyed_object _ _ _ Hk) as (props & -> & Hs & Hc).
  exists props, entries, before, after.
  split; [ reflexivity | ].
  split; [ exact Hs | ].
  split; [ exact Hc | ].
  split; [ exact Hget | ].
  split; assumption.
Qed.

End Scan.

(** ** The handler over an arbitrary rule document *)

Section Documents.
Context {R : Runtime}.

Lemma recommend_document (w : World) (data : JSON) (s c : string)
    (region0 : option string) :
  disk w rulesFilePath = Some (Some data) -> s <> "" -> c <> "" ->
  fst (recommend (query s c region0) w) =
  respond data (Some (JStr s)) (Some (JStr c)) (option_map JStr region0).
Proof.
  intros Hfile Hs Hc. rewrite recommend_spec.
  rewrite field_query_soilType, field_query_crop, field_query_region.
  cbn [ToBoolean]. rewrite !nonempty_string_truthy by assumption.
  cbn [negb orb fst]. rewrite Hfile. reflexivity.
Qed.

Lemma respond_not_found (data : JSON) (s c : string) (region0 : option string) :
  find_in data (toLowerCase s) (toLowerCase c) = Return None ->
  respond data (Some (JStr s)) (Some (JStr c)) (option_map JStr region0) =
  Return (res_json (AdvicePayload
    {| soilType := toLowerCase s; crop := toLowerCase c;
       region := JStr (region_text region0);
       recommendation := generic_guidance |})).
Proof.
  intros Hf. unfold respond. cbn [String_ ToString obind]. rewrite Hf.
  cbn [obind]. unfold fallback_response. rewrite or_else_region. reflexivity.
Qed.

Lemma respond_throws (data : JSON) (s c : string) (rg : JSValue) (e : Exn) :
  find_in data (toLowerCase s) (toLowerCase c) = Throw e ->
  respond data (Some (JStr s)) (Some (JStr c)) rg = Throw e.
Proof.
  intros Hf. unfold respond. cbn [String_ ToString obind]. rewrite Hf. reflexivity.
Qed.

(** X2: the first entry of the rules array keyed by the lowercased query
    answers, whatever follows it (a [null] included), and its own
    [sowingTime], [irrigation] and [fertilizer] go into the response as they
    are: a property the entry lacks stays absent, it is not filled from the
    generic guidance. *)
Theorem X2_first_keyed_entry_answers_verbatim
    (w : World) (data : JSON) (s c : string) (region0 : option string)
    (before after : list JSON) (props : list (string * JSON)) :
  disk w rulesFilePath = Some (Some data) -> s <> "" -> c <> "" ->
  Get data "rules" = Return (Some (JArr (before ++ JObj props :: after))) ->
  passed_over (toLowerCase s) (toLowerCase c) before ->
  keyed (toLowerCase s) (toLowerCase c) (JObj props) = true ->
  fst (recommend (query s c region0) w) =
    Return (res_json (AdvicePayload
      {| soilType := toLowerCase s;
         crop := toLowerCase c;
         region := JStr (region_text region0);
         recommendation :=
           {| sowingTime := own_property props "sowingTime";
              irrigation := own_property props "irrigation";
              fertilizer := own_property props "fertilizer";
              notes := or_else (own_property props "notes") JNull |} |})).
Proof.
  intros Hfile Hs Hc Hget Hp Hk.
  rewrite (recommend_document w data s c region0 Hfile Hs Hc).
  unfold respond. cbn [String_ ToString obind].
  unfold find_in. rewrite Hget. cbn [obind or_else truthy].
  rewrite (find_rule_passed_over _ _ _ _ Hp).
  cbn [find_rule]. rewrite rule_test_not_null by reflexivity. rewrite Hk.
  cbn [obind truthy negb]. unfold match_response. cbn [Get obind].
  rewrite or_else_region. reflexivity.
Qed.

(** X3: a [null] entry that the scan reaches before any keyed entry makes
    the handler throw a [TypeError]. *)
Theorem X3_null_entry_before_match_throws
    (w : World) (data : JSON) (s c : string) (region0 : option string)
    (before after : list JSON) :
  disk w rulesFilePath = Some (Some data) -> s <> "" -> c <> "" ->
  Get data "rules" = Return (Some (JArr (before ++ JNull :: after))) ->
  passed_over (toLowerCase s) (toLowerCase c) before ->
  fst (recommend (query s c region0) w) = Throw TypeError.
Proof.
  intros Hfile Hs Hc Hget Hp.
  rewrite (recommend_document w data s c region0 Hfile Hs Hc).
  apply respond_throws.
  unfold find_in. rewrite Hget. cbn [obind or_else truthy].
  rewrite (find_rule_passed_over _ _ _ _ Hp). reflexivity.
Qed.

(** X4: a document that parses but has no truthy [rules] property (a
    top-level array of rules, a string, an object without [rules]) is an
    empty table: every valid query gets the generic fallback. *)
Theorem X4_document_without_rules_is_an_empty_table
    (w : World) (data : JSON) (rules0 : JSValue) (s c : string)
    (region0 : option string) :
  disk w rulesFilePath = Some (Some data) -> s <> "" -> c <> "" ->
  Get data "rules" = Return rules0 -> ToBoolean rules0 = false ->
  fst (recommend (query s c region0) w) =
    Return (res_json (AdvicePayload
      {| soilType := toLowerCase s;
         crop := toLowerCase c;
         region := JStr (region_text region0);
         recommendation := generic_guidance |})).
Proof.
  intros Hfile Hs Hc Hget Hfalsy.
  rewrite (recommend_document w data s c region0 Hfile Hs Hc).
  apply respond_not_found.
  unfold find_in. rewrite Hget. cbn [obind].
  rewrite (or_else_falsy _ _ Hfalsy). reflexivity.
Qed.

(** X5: a [rules] property that is truthy and not an array has no [find]
    method, and the handler throws a [TypeError]. *)
Theorem X5_rules_that_is_no_array_throws
    (w : World) (data rules0 : JSON) (s c : string) (region0 : option string) :
  disk w rulesFilePath = Some (Some data) -> s <> "" -> c <> "" ->
  Get data "rules" = Return (Some rules0) -> truthy rules0 = true ->
  (forall entries, rules0 <> JArr entries) ->
  fst (recommend (query s c region0) w) = Throw TypeError.
Proof.
  intros Hfile Hs Hc Hget Htruthy Hshape.
  rewrite (recommend_document w data s c region0 Hfile Hs Hc).
  apply respond_throws.
  unfold find_in. rewrite Hget. cbn [obind].
  rewrite (or_else_of_truthy _ _ Htruthy).
  destruct rules0; try reflexivity. exfalso. eapply Hshape. reflexivity.
Qed.

End Documents.

Lemma X1_witness :
  exists props entries before after,
    JObj [("soil", JStr "5"); ("crop", JStr "rice")] = JObj props /\
    own_property props "soil" = Some (JStr "5") /\
    own_property props "crop" = Some (JStr "rice") /\
    Get numeric_key_document "rules" = Return (Some (JArr entries)) /\
    entries = (before ++ JObj [("soil", JStr "5"); ("crop", JStr "rice")] :: after)%list /\
    passed_over "5" "rice" before.
Proof.
  apply (X1_match_is_object_with_exact_string_keys numeric_key_document "5" "rice").
  reflexivity.
Defined.

Lemma X2_witness :
  fst (@recommend ascii_runtime (query "Clay" "Rice" None)
         (world_with (Some (Some sparse_document))))
  = Return (res_json (AdvicePayload
      {| soilType := "clay"; crop := "rice"; region := JStr "";
         recommendation :=
           {| sowingTime := None; irrigation := Some (JNum "2");
              fertilizer := None; notes := JNull |} |})).
Proof.
  apply (@X2_first_keyed_entry_answers_verbatim ascii_runtime
           (world_with (Some (Some sparse_document))) sparse_document
           "Clay" "Rice" None [JNum "7"] [JNull]
           [("soil", JStr "clay"); ("crop", JStr "rice"); ("irrigation", JNum "2")]).
  - reflexivity.
  - discriminate.
  - discriminate.
  - reflexivity.
  - intros m [<- | []]. split; reflexivity.
  - reflexivity.
Defined.

Lemma X3_witness :
  fst (@recommend ascii_runtime (query "clay" "rice" None)
         (world_with (Some (Some document_with_null))))
  = Throw TypeError.
Proof.
  apply (@X3_null_entry_before_match_throws ascii_runtime
           (world_with (Some (Some document_with_null))) document_with_null
           "clay" "rice" None [json_of_rule loam_wheat_blank_notes]
           [json_of_rule clay_rice]).
  - reflexivity.
  - discriminate.
  - discriminate.
  - reflexivity.
  - intros m [<- | []]. split; reflexivity.
Defined.

Lemma X4_witness :
  fst (@recommend ascii_runtime (query "clay" "rice" None)
         (world_with (Some (Some bare_array_document))))
  = Return (fallback_response "clay" "rice" None).
Proof.
  apply (@X4_document_without_rules_is_an_empty_table ascii_runtime
           (world_with (Some (Some bare_array_document))) bare_array_document
           None "clay" "rice" None).
  - reflexivity.
  - discriminate.
  - discriminate.
  - reflexivity.
  - reflexivity.
Defined.

Lemma X5_witness :
  fst (@recommend ascii_runtime (query "clay" "rice" None)
         (world_with (Some (Some rules_object_document))))
  = Throw TypeError.
Proof.
  apply (@X5_rules_that_is_no_array_throws ascii_runtime
           (world_with (Some (Some rules_object_document))) rules_object_document
           (JObj [("0", json_of_rule clay_rice)]) "clay" "rice" None).
  - reflexivity.
  - discriminate.
  - discriminate.
  - reflexivity.
  - reflexivity.
  - discriminate.
Defined.

(** ** String conversion *)

Lemma JSON_nested_ind (P : JSON -> Prop) :
  P JNull -> (forall b, P (JBool b)) -> (forall r, P (JNum r)) ->
  (forall s, P (JStr s)) -> (forall l, Forall P l -> P (JArr l)) ->
  (forall props, P (JObj props)) ->
  forall v, P v.
Proof.
  intros HN HB HR HS HA HO. fix IH 1.
  intros [ | b | r | s | l | props];
    [ exact HN | apply HB | apply HR | apply HS | | apply HO ].
  apply HA. induction l as [|x l IHl]; constructor; [ apply IH | exact IHl ].
Qed.

Lemma ToString_cons (x : JSON) (rest : list JSON) :
  ToString (JArr (x :: rest)) =
  obind (match x with JNull => Return "" | _ => ToString x end)
    (fun s =>
       match rest with
       | [] => Return s
       | _ :: _ => obind (ToString (JArr rest)) (fun t => Return (s ++ "," ++ t))
       end).
Proof. reflexivity. Qed.

(** [String(v)] returns exactly for the convertible values, and throws a
    [TypeError] for the others. *)
Lemma ToString_outcome (v : JSON) :
  if convertible v
  then exists s, ToString v = Return s
  else ToString v = Throw TypeError.
Proof.
  induction v as [ | b | r | s | l Hl | props] using JSON_nested_ind;
    try (simpl; eexists; reflexivity).
  - destruct b; simpl; eexists; reflexivity.
  - induction Hl as [|x rest Hx Hrest IH].
    + simpl. eexists. reflexivity.
    + rewrite ToString_cons.
      change (convertible (JArr (x :: rest)))
        with (convertible x && convertible (JArr rest)).
      destruct (convertible x) eqn:Ex; cbn [andb].
      * assert (Helem : exists s, match x with
                                  | JNull => Return ""
                                  | _ => ToString x
                                  end = Return s).
        { destruct x; try exact Hx. eexists. reflexivity. }
        destruct Helem as [s ->]. cbn [obind].
        destruct rest as [|y rest'].
        -- simpl. eexists. reflexivity.
        -- destruct (convertible (JArr (y :: rest'))).
           ++ destruct IH as [t ->]. cbn [obind]. eexists. reflexivity.
           ++ rewrite IH. reflexivity.
      * destruct x; try discriminate; rewrite Hx; reflexivity.
  - simpl. destruct (own_property props "toString");
      [ reflexivity | eexists; reflexivity ].
Qed.

Lemma ToString_singleton (v : JSON) :
  truthy v = true -> ToString (JArr [v]) = ToString v.
Proof.
  intros Hv. rewrite ToString_cons.
  destruct v; try discriminate; destruct (ToString _); reflexivity.
Qed.

Lemma field_body_of_soilType sv cv rg : field (body_of sv cv rg) "soilType" = Some sv.
Proof. reflexivity. Qed.

Lemma field_body_of_crop sv cv rg : field (body_of sv cv rg) "crop" = Some cv.
Proof. reflexivity. Qed.

Lemma field_body_of_region sv cv rg : field (body_of sv cv rg) "region" = Some rg.
Proof. reflexivity. Qed.

Lemma find_filter_implied {A : Type} (p q : A -> bool) (l : list A) :
  (forall x, p x = true -> q x = true) ->
  find p (filter q l) = find p l.
Proof.
  intros Hpq. induction l as [|x l IH]; [ reflexivity | ].
  cbn [filter find]. destruct (p x) eqn:Hp.
  - rewrite (Hpq x Hp). cbn [find]. rewrite Hp. reflexivity.
  - destruct (q x); cbn [find]; rewrite ?Hp; exact IH.
Qed.

Lemma lower_ascii_idempotent (c : ascii) :
  lower_ascii (lower_ascii c) = lower_ascii c.
Proof.
  destruct c as [[|] [|] [|] [|] [|] [|] [|] [|]]; reflexivity.
Qed.

Lemma ascii_toLowerCase_idempotent (s : string) :
  ascii_toLowerCase (ascii_toLowerCase s) = ascii_toLowerCase s.
Proof.
  induction s as [|c s IH]; [ reflexivity | ].
  cbn [ascii_toLowerCase]. rewrite lower_ascii_idempotent, IH. reflexivity.
Qed.

(** ** What the request can and cannot change *)

Section Requests.
Context {R : Runtime}.

Lemma respond_region (data : JSON) (st cr rg rg' : JSValue) :
  same_but_region (respond data st cr rg) (respond data st cr rg').
Proof.
  unfold respond.
  destruct (String_ st) as [s|e]; [ | simpl; reflexivity ].
  destruct (String_ cr) as [c|e]; [ | simpl; reflexivity ].
  cbn [obind].
  destruct (find_in data (toLowerCase s) (toLowerCase c)) as [[m|]|e];
    cbn [obind].
  - destruct (negb (truthy m)); [ simpl; repeat split; reflexivity | ].
    unfold match_response.
    destruct (Get m "sowingTime"); [ | simpl; reflexivity ].
    destruct (Get m "irrigation"); [ | simpl; reflexivity ].
    destruct (Get m "fertilizer"); [ | simpl; reflexivity ].
    destruct (Get m "notes"); [ | simpl; reflexivity ].
    simpl. repeat split; reflexivity.
  - simpl. repeat split; reflexivity.
  - simpl. reflexivity.
Qed.

(** X6: the region takes no part in the lookup.  Two requests with the same
    [soilType] and [crop] get the same outcome (the same exception, or
    responses with the same status, soil, crop and recommendation), and the
    [region] of a response is the request's value when truthy, of whatever
    type and as it is, and the empty string otherwise. *)
Theorem X6_region_changes_only_the_region
    (body body' : JSValue) (w : World) :
  field body' "soilType" = field body "soilType" ->
  field body' "crop" = field body "crop" ->
  same_but_region (fst (recommend body w)) (fst (recommend body' w))
  /\ forall resp a,
       fst (recommend body w) = Return resp -> payload resp = AdvicePayload a ->
       region a = or_else (field body "region") (JStr "").
Proof.
  intros Hs Hc. rewrite !recommend_spec, Hs, Hc.
  destruct (negb (ToBoolean (field body "soilType"))
            || negb (ToBoolean (field body "crop"))); cbn [fst].
  - split; [ cbn; auto | ].
    intros resp a [= <-]. discriminate.
  - split; [ apply respond_region | ].
    intros resp a Hresp Hpay. apply respond_shape in Hresp.
    destruct Hresp as (s & c & reco & _ & _ & ->).
    cbn in Hpay. injection Hpay as <-. reflexivity.
Qed.

(** X7: a [soilType] or [crop] given as a one-element array is treated as
    its element: [String([v])] is [String(v)]. *)
Theorem X7_one_element_array_is_its_element
    (w : World) (sv cv rg : JSON) :
  truthy sv = true -> truthy cv = true ->
  fst (recommend (body_of (JArr [sv]) cv rg) w) = fst (recommend (body_of sv cv rg) w)
  /\ fst (recommend (body_of sv (JArr [cv]) rg) w) = fst (recommend (body_of sv cv rg) w).
Proof.
  intros Hsv Hcv. rewrite !recommend_spec.
  rewrite !field_body_of_soilType, !field_body_of_crop, !field_body_of_region.
  cbn [ToBoolean truthy]. rewrite Hsv, Hcv. cbn [negb orb fst].
  unfold respond. cbn [String_].
  rewrite (ToString_singleton sv Hsv), (ToString_singleton cv Hcv).
  split; reflexivity.
Qed.

Lemma respond_table_convertible (rules : list Rule) (s c : string) (rg : JSValue) :
  exists a, 
    obind (find_in (json_of_table rules) (toLowerCase s) (toLowerCase c))
      (fun found =>
         match found with
         | Some m =>
             if negb (truthy m)
             then Return (fallback_response (toLowerCase s) (toLowerCase c) rg)
             else match_response (toLowerCase s) (toLowerCase c) rg m
         | None => Return (fallback_response (toLowerCase s) (toLowerCase c) rg)
         end) = Return (res_json (AdvicePayload a)).
Proof.
  rewrite find_in_table. cbn [obind].
  destruct (find _ rules) as [r|]; cbn [option_map].
  - change (truthy (json_of_rule r)) with true. cbn [negb].
    rewrite match_response_json. eexists. reflexivity.
  - eexists. reflexivity.
Qed.

(** X8: against a rule table, a request whose [soilType] and [crop] are
    truthy is answered with a 200 when both values are convertible to a
    string, and makes the handler throw a [TypeError] when one of them is,
    or holds inside nested arrays, an object with an own [toString]
    property. *)
Theorem X8_answered_exactly_when_convertible
    (w : World) (rules : list Rule) (sv cv rg : JSON) :
  holds_table w rules -> truthy sv = true -> truthy cv = true ->
  (convertible sv && convertible cv = true ->
   exists a, fst (recommend (body_of sv cv rg) w) = Return (res_json (AdvicePayload a)))
  /\ (convertible sv && convertible cv = false ->
      fst (recommend (body_of sv cv rg) w) = Throw TypeError).
Proof.
  intros Hw Hsv Hcv. rewrite recommend_spec.
  rewrite field_body_of_soilType, field_body_of_crop, field_body_of_region.
  cbn [ToBoolean]. rewrite Hsv, Hcv. cbn [negb orb fst].
  unfold holds_table in Hw. rewrite Hw. cbn [loaded].
  unfold respond. cbn [String_].
  pose proof (ToString_outcome sv) as Hs. pose proof (ToString_outcome cv) as Hc.
  destruct (convertible sv); cbn [andb].
  - destruct Hs as [s ->]. cbn [obind].
    destruct (convertible cv).
    + destruct Hc as [c ->]. cbn [obind]. split; [ | discriminate ].
      intros _. apply respond_table_convertible.
    + rewrite Hc. cbn [obind]. split; [ discriminate | reflexivity ].
  - rewrite Hs. cbn [obind]. split; [ discriminate | reflexivity ].
Qed.

(** X9: when lowercasing is idempotent, a rule stored with a [soil] or
    [crop] that lowercasing would change is never matched by any request:
    dropping all such rules from the table changes no response. *)
Theorem X9_rules_not_in_lowercase_are_dead
    (w w' : World) (rules : list Rule) (s c : string) (region0 : option string) :
  (forall x, toLowerCase (toLowerCase x) = toLowerCase x) ->
  holds_table w rules ->
  holds_table w' (filter stored_in_lowercase rules) ->
  s <> "" -> c <> "" ->
  fst (recommend (query s c region0) w') = fst (recommend (query s c region0) w).
Proof.
  intros Hidem Hw Hw' Hs Hc.
  rewrite (recommend_table w rules s c region0 Hw Hs Hc).
  rewrite (recommend_table w' _ s c region0 Hw' Hs Hc).
  unfold advice_for. rewrite find_filter_implied; [ reflexivity | ].
  intros r Hm. unfold rule_matches in Hm. apply andb_prop in Hm.
  destruct Hm as [H1 H2]. apply String.eqb_eq in H1. apply String.eqb_eq in H2.
  unfold stored_in_lowercase. rewrite H1, H2, !Hidem, !String.eqb_refl.
  reflexivity.
Qed.

End Requests.

Lemma X6_witness :
  same_but_region
    (fst (@recommend ascii_runtime (query "clay" "rice" None)
            (table_world [clay_rice])))
    (fst (@recommend ascii_runtime (query "clay" "rice" (Some "Punjab"))
            (table_world [clay_rice]))).
Proof.
  apply (@X6_region_changes_only_the_region ascii_runtime
           (query "clay" "rice" None) (query "clay" "rice" (Some "Punjab"))
           (table_world [clay_rice])); reflexivity.
Defined.

Lemma X7_witness :
  fst (@recommend ascii_runtime (body_of (JArr [JStr "Clay"]) (JStr "rice") JNull)
         (table_world [clay_rice]))
  = fst (@recommend ascii_runtime (body_of (JStr "Clay") (JStr "rice") JNull)
           (table_world [clay_rice])).
Proof.
  apply (@X7_one_element_array_is_its_element ascii_runtime
           (table_world [clay_rice]) (JStr "Clay") (JStr "rice") JNull);
    reflexivity.
Defined.

Lemma X8_witness :
  (exists a,
     fst (@recommend ascii_runtime
            (body_of (JArr [JStr "Clay"; JNull]) (JBool true) JNull)
            (table_world [clay_rice]))
     = Return (res_json (AdvicePayload a)))
  /\ fst (@recommend ascii_runtime
            (body_of (JStr "clay") (JArr [JArr [JObj [("toString", JNull)]]]) JNull)
            (table_world [clay_rice]))
     = Throw TypeError.
Proof.
  split.
  - apply (@X8_answered_exactly_when_convertible ascii_runtime
             (table_world [clay_rice]) [clay_rice]
             (JArr [JStr "Clay"; JNull]) (JBool true) JNull); reflexivity.
  - apply (@X8_answered_exactly_when_convertible ascii_runtime
             (table_world [clay_rice]) [clay_rice]
             (JStr "clay") (JArr [JArr [JObj [("toString", JNull)]]]) JNull);
      reflexivity.
Defined.

Lemma X9_witness :
  fst (@recommend ascii_runtime (query "Clay" "Rice" None) (table_world [clay_rice]))
  = fst (@recommend ascii_runtime (query "Clay" "Rice" None)
           (table_world [capitalised_rule; clay_rice])).
Proof.
  apply (@X9_rules_not_in_lowercase_are_dead ascii_runtime
           (table_world [capitalised_rule; clay_rice]) (table_world [clay_rice])
           [capitalised_rule; clay_rice] "Clay" "Rice" None).
  - exact ascii_toLowerCase_idempotent.
  - reflexivity.
  - reflexivity.
  - discriminate.
  - discriminate.
Defined.

(** * The advisory form *)

Lemma canSubmit_empty (st : Advisory.State) :
  Advisory.soilType st = "" \/ Advisory.crop st = "" ->
  Advisory.canSubmit st = "".
Proof.
  unfold Advisory.canSubmit. intros [H | H].
  - rewrite H. reflexivity.
  - destruct (negb (Advisory.soilType st =? "")) eqn:E; [ exact H | ].
    apply negb_false_iff, String.eqb_eq in E. exact E.
Qed.

Lemma canSubmit_filled (st : Advisory.State) :
  Advisory.soilType st <> "" -> Advisory.crop st <> "" ->
  (Advisory.canSubmit st =? "") = false.
Proof.
  unfold Advisory.canSubmit. intros Hs Hc.
  destruct (String.eqb_spec (Advisory.soilType st) ""); [ contradiction | ].
  cbn [negb]. destruct (String.eqb_spec (Advisory.crop st) "");
    [ contradiction | reflexivity ].
Qed.

Lemma on_catch_error (message : string) (st : Advisory.State) :
  Advisory.error (Advisory.on_catch message st) <> "".
Proof.
  unfold Advisory.on_catch. cbn [Advisory.setError Advisory.error].
  destruct (String.eqb_spec message ""); [ discriminate | assumption ].
Qed.

Lemma nonempty_strings_pass_the_guard {R : Runtime} (body : JSValue) (w : World)
    (s c : string) :
  field body "soilType" = Some (JStr s) -> field body "crop" = Some (JStr c) ->
  s <> "" -> c <> "" ->
  forall e, fst (recommend body w) <> Return (res_status_json 400 (ErrorPayload e)).
Proof.
  intros Hsoil Hcrop Hs Hc e. rewrite recommend_spec, Hsoil, Hcrop.
  cbn [ToBoolean]. rewrite !nonempty_string_truthy by assumption.
  cbn [negb orb fst]. intros H. apply respond_shape in H.
  destruct H as (s' & c' & reco & _ & _ & H). discriminate.
Qed.

Section Form.
Context {R : Runtime}.
Variable conversion_failure : string.
Variable fetch : JSValue -> Advisory.Fetched.

(** X10: the form sends nothing, and keeps its state, while the soil or the
    crop is not selected; the body it sends otherwise carries two non-empty
    strings, so the endpoint never answers it with the validation error,
    and against a rule table answers it with the advice for the selection,
    the region echoed as typed. *)
Theorem X10_form_sends_only_what_passes_validation
    (st : Advisory.State) (w : World) :
  (Advisory.soilType st = "" \/ Advisory.crop st = "" ->
   Advisory.onSubmit conversion_failure fetch st = (st, None))
  /\ (Advisory.soilType st <> "" -> Advisory.crop st <> "" ->
      snd (Advisory.onSubmit conversion_failure fetch st) =
        Some (query (Advisory.soilType st) (Advisory.crop st)
                (Some (Advisory.region st)))
      /\ (forall e,
            fst (recommend (Advisory.request_body st) w) <>
            Return (res_status_json 400 (ErrorPayload e)))
      /\ forall rules,
           holds_table w rules ->
           fst (recommend (Advisory.request_body st) w) =
           Return (advice_for rules (Advisory.soilType st) (Advisory.crop st)
                     (Some (Advisory.region st)))).
Proof.
  split.
  - intros H. unfold Advisory.onSubmit.
    rewrite (canSubmit_empty st H). reflexivity.
  - intros Hs Hc. split; [ | split ].
    + unfold Advisory.onSubmit. rewrite (canSubmit_filled st Hs Hc). reflexivity.
    + apply (nonempty_strings_pass_the_guard (Advisory.request_body st) w
               (Advisory.soilType st) (Advisory.crop st));
        [ reflexivity | reflexivity | assumption | assumption ].
    + intros rules Hw.
      change (Advisory.request_body st)
        with (query (Advisory.soilType st) (Advisory.crop st)
                (Some (Advisory.region st))).
      rewrite (recommend_table w rules _ _ _ Hw Hs Hc). reflexivity.
Qed.

(** X11: once a submission has run to its end the form is no longer
    loading, its inputs are untouched, and it holds either the data of an
    ok answer with no error text, or no result and a non-empty error text:
    never both. *)
Theorem X11_submission_ends_with_result_or_error (st : Advisory.State) :
  Advisory.soilType st <> "" -> Advisory.crop st <> "" ->
  let st' := fst (Advisory.onSubmit conversion_failure fetch st) in
  Advisory.loading st' = false
  /\ Advisory.soilType st' = Advisory.soilType st
  /\ Advisory.crop st' = Advisory.crop st
  /\ Advisory.region st' = Advisory.region st
  /\ ((Advisory.error st' = "" /\
       exists data,
         fetch (Advisory.request_body st) = Advisory.Answered true data /\
         Advisory.result st' = data)
      \/ (Advisory.result st' = JNull /\ Advisory.error st' <> "")).
Proof.
  intros Hs Hc. cbv zeta. unfold Advisory.onSubmit.
  rewrite (canSubmit_filled st Hs Hc). cbn [fst].
  destruct (fetch (Advisory.request_body st)) as [m | ok m | [|] data];
    cbn [negb]; repeat (split; [ reflexivity | ]).
  - right. split; [ reflexivity | apply on_catch_error ].
  - right. split; [ reflexivity | apply on_catch_error ].
  - left. split; [ reflexivity | ]. exists data. split; reflexivity.
  - right. split; [ reflexivity | apply on_catch_error ].
Qed.

(** X12: when the answer is not ok, the form shows the [error] string of
    the answer's body if it has a non-empty one, and "Request failed" when
    the body has no truthy [error]. *)
Theorem X12_error_of_the_answer_is_shown (st : Advisory.State) (data : JSON) :
  Advisory.soilType st <> "" -> Advisory.crop st <> "" ->
  fetch (Advisory.request_body st) = Advisory.Answered false data ->
  let st' := fst (Advisory.onSubmit conversion_failure fetch st) in
  Advisory.result st' = JNull
  /\ (forall m, Advisory.optional_error data = Some (JStr m) -> m <> "" ->
      Advisory.error st' = m)
  /\ (ToBoolean (Advisory.optional_error data) = false ->
      Advisory.error st' = "Request failed").
Proof.
  intros Hs Hc Hfetch. cbv zeta. unfold Advisory.onSubmit.
  rewrite (canSubmit_filled st Hs Hc), Hfetch. cbn [fst negb].
  split; [ reflexivity | ]. split.
  - intros m Hm Hne. unfold Advisory.on_catch, Advisory.thrown_message.
    rewrite Hm, (or_else_of_truthy _ _ (nonempty_string_truthy m Hne)).
    cbn [ToString Advisory.setLoading Advisory.setError Advisory.error].
    destruct (String.eqb_spec m ""); [ contradiction | reflexivity ].
  - intros Hfalsy. unfold Advisory.on_catch, Advisory.thrown_message.
    rewrite (or_else_falsy _ _ Hfalsy). reflexivity.
Qed.

(** X13: when the network delivers what the handler sends, a submission of
    the filled form against a rule table ends with the handler's advice as
    the result (its region the text typed in the form) and no error. *)
Theorem X13_form_against_a_rule_table_gets_the_advice
    (st : Advisory.State) (w : World) (rules : list Rule) :
  Advisory.soilType st <> "" -> Advisory.crop st <> "" ->
  holds_table w rules ->
  (forall resp,
     fst (recommend (Advisory.request_body st) w) = Return resp ->
     fetch (Advisory.request_body st) =
     Advisory.Answered ((200 <=? status resp)%nat && (status resp <=? 299)%nat)
       (json_of_payload (payload resp))) ->
  let st' := fst (Advisory.onSubmit conversion_failure fetch st) in
  Advisory.loading st' = false
  /\ Advisory.error st' = ""
  /\ Advisory.result st' =
       json_of_payload (AdvicePayload
         {| soilType := toLowerCase (Advisory.soilType st);
            crop := toLowerCase (Advisory.crop st);
            region := JStr (Advisory.region st);
            recommendation :=
              match find (rule_matches (toLowerCase (Advisory.soilType st))
                            (toLowerCase (Advisory.crop st))) rules with
              | Some r => recommendation_of r
              | None => generic_guidance
              end |}).
Proof.
  intros Hs Hc Hw Hnet. cbv zeta. unfold Advisory.onSubmit.
  rewrite (canSubmit_filled st Hs Hc). cbn [fst].
  rewrite (Hnet (advice_for rules (Advisory.soilType st) (Advisory.crop st)
                   (Some (Advisory.region st)))).
  - repeat split; reflexivity.
  - change (Advisory.request_body st)
      with (query (Advisory.soilType st) (Advisory.crop st)
              (Some (Advisory.region st))).
    rewrite (recommend_table w rules _ _ _ Hw Hs Hc). reflexivity.
Qed.

End Form.

Lemma X10_witness :
  Advisory.onSubmit "" (always_answers (Advisory.FetchRejected "")) blank_form
  = (blank_form, None)
  /\ snd (Advisory.onSubmit "" (always_answers (Advisory.FetchRejected ""))
            clay_rice_form)
     = Some (query "clay" "rice" (Some "")).
Proof.
  split.
  - apply (@X10_form_sends_only_what_passes_validation ascii_runtime ""
             (always_answers (Advisory.FetchRejected "")) blank_form
             (world_with None)).
    left. reflexivity.
  - apply (proj2 (@X10_form_sends_only_what_passes_validation ascii_runtime ""
                    (always_answers (Advisory.FetchRejected "")) clay_rice_form
                    (world_with None)));
      discriminate.
Defined.

Lemma X11_witness :
  Advisory.loading
    (fst (Advisory.onSubmit "" (always_answers (Advisory.FetchRejected ""))
            clay_rice_form)) = false.
Proof.
  apply (X11_submission_ends_with_result_or_error ""
           (always_answers (Advisory.FetchRejected "")) clay_rice_form);
    discriminate.
Defined.

Lemma X12_witness :
  Advisory.error
    (fst (Advisory.onSubmit ""
            (always_answers
               (Advisory.Answered false (json_of_payload (payload validation_error))))
            clay_rice_form))
  = "Missing required fields: soilType and crop".
Proof.
  apply (X12_error_of_the_answer_is_shown ""
           (always_answers
              (Advisory.Answered false (json_of_payload (payload validation_error))))
           clay_rice_form (json_of_payload (payload validation_error)));
    [ discriminate | discriminate | reflexivity | reflexivity | discriminate ].
Defined.

Lemma X13_witness :
  Advisory.result
    (fst (Advisory.onSubmit ""
            (always_answers
               (Advisory.Answered true
                  (json_of_payload
                     (payload (@advice_for ascii_runtime [clay_rice] "clay" "rice"
                                 (Some ""))))))
            clay_rice_form))
  = JObj [("soilType", JStr "clay"); ("crop", JStr "rice"); ("region", JStr "");
          ("recommendation",
           JObj [("sowingTime", JStr "June"); ("irrigation", JStr "Daily");
                 ("fertilizer", JStr "Urea"); ("notes", JNull)])].
Proof.
  apply (@X13_form_against_a_rule_table_gets_the_advice ascii_runtime ""
           (always_answers
              (Advisory.Answered true
                 (json_of_payload
                    (payload (@advice_for ascii_runtime [clay_rice] "clay" "rice"
                                (Some ""))))))
           clay_rice_form (table_world [clay_rice]) [clay_rice]).
  - discriminate.
  - discriminate.
  - reflexivity.
  - intros resp H. vm_compute in H. injection H as <-. reflexivity.
Defined.
